(** * durable-object-starter: the domain ledger and its HTTP router

    A shallow embedding of [src/index.ts]: the Durable Object class
    [MyDurableObject] (four methods over one key-value storage) and the
    worker's [fetch] handler, followed by the properties of both.

    Modelling conventions.
    - TypeScript annotations are erased at run time, so values carry
      their run-time shape: a stored entry is whatever [storage.put]
      was last given, and the fields of an offer are whatever JSON
      values the router forwarded.
    - A JavaScript number is [NaN] or an integer [Num z]; integers are
      exact (the 2^53 precision limit of doubles, fractional amounts and
      the 2^32-1 length limit of arrays are not modelled; a property
      that starts from a stored count bounds it).
    - [new Date().toISOString()] is an input [now] of the operation.
    - What the platform refuses ([storage.put] of a value over the
      value limit, a stub call with an argument it cannot serialize) is
      an input [P] of the operation: the limits are the platform's, not
      this program's.
    - The platform objects [Request], [Response] and the storage are
      records and maps holding what the code reads from or passes to
      them. *)

From Stdlib Require Import ZArith String Ascii List Lia.
From stdpp Require Import base option gmap strings list.

Set Warnings "-register-all".
Local Open Scope string_scope.
Local Open Scope list_scope.

(** ** JavaScript values *)

Inductive number :=
  | NaN
  | Num (z : Z).

(** [0] and [NaN] are the falsy numbers. *)
Definition number_truthy (n : number) : bool :=
  match n with
  | NaN => false
  | Num z => negb (z =? 0)%Z
  end.

(** [n + 1] on numbers; a double holds the integers from [-2^53] to
    [2^53] exactly, and the successor is taken as exact. *)
Definition number_succ (n : number) : number :=
  match n with
  | NaN => NaN
  | Num z => Num (z + 1)
  end.

(** What [JSON.parse] can return, and [undefined] for an absent
    property. An object is the list of its own properties. *)
Inductive value :=
  | VUndefined
  | VNull
  | VBool (b : bool)
  | VNum (n : number)
  | VStr (s : string)
  | VArr (items : list value)
  | VObj (props : list (string * value)).

(** JavaScript's ToBoolean. *)
Definition truthy (v : value) : bool :=
  match v with
  | VUndefined | VNull => false
  | VBool b => b
  | VNum n => number_truthy n
  | VStr s => negb (String.eqb s "")
  | VArr _ | VObj _ => true
  end.

Inductive exn :=
  | TypeError (msg : string)
  | SyntaxError (msg : string)
  | RangeError (msg : string)
  | JsError (msg : string).

Inductive outcome (A : Type) :=
  | Returned (a : A)
  | Thrown (e : exn).
Arguments Returned {A} a.
Arguments Thrown {A} e.

(** ** The Durable Object *)

(** [Omit<DomainOffer, 'timestamp'>]: the argument of
    [submitDomainOffer]. *)
Record OfferInput := {
  in_email : value;
  in_amount : value;
  in_description : value
}.

Record DomainOffer := {
  email : value;
  amount : value;
  description : value;
  timestamp : string
}.

(** The two shapes [storage.put] is given: a number (by
    [trackDomainRequest]) or an array of offers (by
    [submitDomainOffer]). *)
Inductive stored :=
  | SNumber (n : number)
  | SOffers (offers : list DomainOffer).

(** ToBoolean of a stored entry: an array, even empty, is truthy. *)
Definition stored_truthy (v : stored) : bool :=
  match v with
  | SNumber n => number_truthy n
  | SOffers _ => true
  end.

(** ToNumber of a stored entry. An array converts through its string:
    [[]] gives [""], hence [0]; an array of offer objects gives
    ["[object Object],..."], hence [NaN]. *)
Definition to_number (v : stored) : number :=
  match v with
  | SNumber n => n
  | SOffers [] => Num 0
  | SOffers (_ :: _) => NaN
  end.

(** [x || d] where [x] is the result of [storage.get]. *)
Definition or_default (x : option stored) (d : stored) : stored :=
  match x with
  | Some v => if stored_truthy v then v else d
  | None => d
  end.

(** What the platform refuses. [storage.put] rejects a value whose
    serialized form passes the value limit (128 KiB), and a stub rejects
    a call whose argument it cannot serialize (too large, or nested too
    deeply). Both limits are the platform's, so they are parameters of
    the model. A number is a few bytes and always fits. *)
Record Platform := {
  put_accepts : list DomainOffer -> bool;
  call_accepts : OfferInput -> bool
}.

Module DO.

(** A method body: it runs on the object's storage, returns or
    throws, and leaves a storage behind. *)
Definition t (A : Type) : Type :=
  gmap string stored -> outcome A * gmap string stored.

Definition ret {A} (a : A) : t A := fun st => (Returned a, st).

Definition throw {A} (e : exn) : t A := fun st => (Thrown e, st).

Definition bind {A B} (m : t A) (k : A -> t B) : t B :=
  fun st =>
    match m st with
    | (Returned a, st') => k a st'
    | (Thrown e, st') => (Thrown e, st')
    end.

(** [this.ctx.storage.get(key)] *)
Definition storage_get (key : string) : t (option stored) :=
  fun st => (Returned (st !! key), st).

(** [this.ctx.storage.put(key, v)]: a value the platform refuses is
    not stored and the promise rejects. *)
Definition storage_put (P : Platform) (key : string) (v : stored) : t unit :=
  fun st =>
    match v with
    | SNumber _ => (Returned tt, <[key := v]> st)
    | SOffers l =>
        if put_accepts P l then (Returned tt, <[key := v]> st)
        else (Thrown (JsError "Values cannot be larger than 131072 bytes"),
              st)
    end.

End DO.

Notation "x <- m ;; k" := (DO.bind m (fun x => k))
  (at level 100, m at next level, right associativity).

(** [`domain:${domain}`] *)
Definition storage_key (domain : string) : string := "domain:" +:+ domain.

Record TrackResult := {
  tr_domain : string;
  tr_requests : number;
  tr_timestamp : string
}.

Record SubmitResult := {
  sr_domain : string;
  sr_offer : DomainOffer;
  sr_totalOffers : nat
}.

Definition trackDomainRequest (P : Platform) (now : string)
    (domain : string) : DO.t TrackResult :=
  got <- DO.storage_get (storage_key domain) ;;
  let requests := or_default got (SNumber (Num 0)) in
  let requests := number_succ (to_number requests) in
  _ <- DO.storage_put P (storage_key domain) (SNumber requests) ;;
  DO.ret {| tr_domain := domain;
            tr_requests := requests;
            tr_timestamp := now |}.

Definition getDomainRequests (domain : string) : DO.t stored :=
  got <- DO.storage_get (storage_key domain) ;;
  DO.ret (or_default got (SNumber (Num 0))).

(** [offers.push(x)]: only an array has a [push] method. *)
Definition push (offers : stored) (x : DomainOffer)
  : DO.t (list DomainOffer) :=
  match offers with
  | SOffers l => DO.ret (l ++ [x])
  | SNumber _ => DO.throw (TypeError "offers.push is not a function")
  end.

(** [{ ...offer, timestamp: new Date().toISOString() }] *)
Definition newOffer (offer : OfferInput) (now : string) : DomainOffer :=
  {| email := in_email offer;
     amount := in_amount offer;
     description := in_description offer;
     timestamp := now |}.

Definition submitDomainOffer (P : Platform) (now : string)
    (domain : string) (offer : OfferInput) : DO.t SubmitResult :=
  got <- DO.storage_get (storage_key domain) ;;
  let offers := or_default got (SOffers []) in
  let newOffer := newOffer offer now in
  offers <- push offers newOffer ;;
  _ <- DO.storage_put P (storage_key domain) (SOffers offers) ;;
  DO.ret {| sr_domain := domain;
            sr_offer := newOffer;
            sr_totalOffers := List.length offers |}.

Definition getDomainOffers (domain : string) : DO.t stored :=
  got <- DO.storage_get (storage_key domain) ;;
  DO.ret (or_default got (SOffers [])).

(** ** The worker *)

(** What [fetch] reads from the request: [request.method],
    [request.headers.get('Authorization')], the [domain] parameter of
    [new URL(request.url).searchParams] and the outcome of
    [request.json()] ([None] when the body is not parseable JSON and the
    promise rejects). *)
Record Request := {
  method : string;
  authorization : option string;
  domain_param : option string;
  json : option value
}.

Record Env := {
  AUTH_TOKEN : string
}.

(** The argument of [JSON.stringify] in a response body. *)
Inductive Json :=
  | JsonSubmit (result : SubmitResult)
  | JsonOffers (domain : string) (offers : stored).

Inductive Body :=
  | BodyNull
  | BodyText (text : string)
  | BodyJson (j : Json).

(** [new Response(body, { status, headers })]; the status defaults to
    200 and the headers to none. *)
Record Response := {
  status : nat;
  body : Body;
  headers : list (string * string)
}.

Definition new_Response (b : Body) (st : option nat)
    (hs : list (string * string)) : Response :=
  {| status := default 200 st; body := b; headers := hs |}.

(** The namespace [env.MY_DURABLE_OBJECT]: every instance name has an
    object with a storage of its own. *)
Definition World : Type := string -> gmap string stored.

Definition empty_world : World := fun _ => ∅.

(** The method calls made on stubs, in order (a call the stub refuses
    is listed too). *)
Inductive RpcCall :=
  | CallSubmitDomainOffer (instance domain : string) (offer : OfferInput)
  | CallGetDomainOffers (instance domain : string).

(** Calling a method on the stub of [instance]. The stub serializes
    the arguments first: when it cannot ([accepted] is [false]) the call
    throws and the object is not reached. *)
Definition rpc {A} (accepted : bool) (instance : string) (m : DO.t A)
    (w : World) : outcome A * World :=
  if accepted then
    let '(r, st') := m (w instance) in
    (r, fun i => if String.eqb i instance then st' else w i)
  else (Thrown (RangeError "Maximum call stack size exceeded"), w).

(** [s.split(sep)] for a one-character separator. *)
Fixpoint js_split (sep : ascii) (s : string) : list string :=
  match s with
  | EmptyString => [""]
  | String c rest =>
      if Ascii.eqb c sep then "" :: js_split sep rest
      else match js_split sep rest with
           | w :: ws => String c w :: ws
           | [] => [String c ""]
           end
  end.

(** [x !== t] where [x] is an array element, [undefined] when absent. *)
Definition strict_neq (x : option string) (t : string) : bool :=
  match x with
  | Some s => negb (String.eqb s t)
  | None => true
  end.

(** The condition of the 401 branch:
    [!authToken || !authToken.startsWith('Bearer ') ||
     authToken.split(' ')[1] !== env.AUTH_TOKEN]. *)
Definition unauthorized (env : Env) (authToken : option string) : bool :=
  match authToken with
  | None => true
  | Some h =>
      String.eqb h ""
      || negb (String.prefix "Bearer " h)
      || strict_neq (js_split " " h !! 1%nat) (AUTH_TOKEN env)
  end.

Definition corsHeaders : list (string * string) :=
  [ ("Access-Control-Allow-Origin", "https://agi-2025.com");
    ("Access-Control-Allow-Methods", "GET,HEAD,POST,OPTIONS");
    ("Access-Control-Allow-Headers", "Content-Type,Authorization");
    ("Access-Control-Max-Age", "86400") ].

Definition jsonHeaders : list (string * string) :=
  corsHeaders ++ [ ("Content-Type", "application/json") ].

(** Reading a property of a parsed JSON value; a string, number,
    boolean or array has none of the properties the router reads. *)
Fixpoint assoc (k : string) (props : list (string * value)) : value :=
  match props with
  | [] => VUndefined
  | (k', v) :: rest => if String.eqb k' k then v else assoc k rest
  end.

Definition get_prop (k : string) (v : value) : value :=
  match v with
  | VObj props => assoc k props
  | _ => VUndefined
  end.

(** [const { email, amount, description } = v]: destructuring [null]
    or [undefined] throws. *)
Definition destructure (v : value) : outcome (value * value * value) :=
  match v with
  | VUndefined | VNull =>
      Thrown (TypeError "Cannot destructure property 'email'")
  | _ =>
      Returned (get_prop "email" v, get_prop "amount" v,
                get_prop "description" v)
  end.

(** [`domain-offers:${domain}`], the name given to [idFromName]. *)
Definition instance_name (domain : string) : string :=
  "domain-offers:" +:+ domain.

(** The [try] block of the POST branch. *)
Definition post_try (P : Platform) (request : Request) (domain : string)
    (now : string) (w : World) : outcome Response * World * list RpcCall :=
  match json request with
  | None => (Thrown (SyntaxError "Unexpected token"), w, [])
  | Some parsed =>
      match destructure parsed with
      | Thrown e => (Thrown e, w, [])
      | Returned (email, amount, description) =>
          if negb (truthy email) || negb (truthy amount) then
            (Returned (new_Response (BodyText "Email and amount are required")
                                    (Some 400) corsHeaders), w, [])
          else
            let offer := {| in_email := email;
                            in_amount := amount;
                            in_description := description |} in
            let call :=
              CallSubmitDomainOffer (instance_name domain) domain offer in
            match rpc (call_accepts P offer) (instance_name domain)
                      (submitDomainOffer P now domain offer) w with
            | (Returned result, w') =>
                (Returned (new_Response (BodyJson (JsonSubmit result))
                                        None jsonHeaders), w', [call])
            | (Thrown e, w') => (Thrown e, w', [call])
            end
      end
  end.

(** The handler. An exception that no [catch] handles leaves [fetch]
    as a rejected promise, here [Thrown]. A domain name is a short
    string, which every stub serializes. *)
Definition fetch (P : Platform) (request : Request) (env : Env)
    (now : string) (w : World)
  : outcome Response * World * list RpcCall :=
  if String.eqb (method request) "OPTIONS" then
    (Returned (new_Response BodyNull None corsHeaders), w, [])
  else if unauthorized env (authorization request) then
    (Returned (new_Response (BodyText "Unauthorized") (Some 401) jsonHeaders),
     w, [])
  else
    match domain_param request with
    | None | Some "" =>
        (Returned (new_Response (BodyText "Domain parameter is required")
                                (Some 400) []), w, [])
    | Some domain =>
        if String.eqb (method request) "POST" then
          match post_try P request domain now w with
          | (Returned response, w', calls) => (Returned response, w', calls)
          | (Thrown _, w', calls) =>
              (Returned (new_Response (BodyText "Invalid request body")
                                      (Some 400) corsHeaders), w', calls)
          end
        else
          let call := CallGetDomainOffers (instance_name domain) domain in
          match rpc true (instance_name domain) (getDomainOffers domain) w
          with
          | (Returned offers, w') =>
              (Returned (new_Response (BodyJson (JsonOffers domain offers))
                                      None jsonHeaders), w', [call])
          | (Thrown e, w') => (Thrown e, w', [call])
          end
    end.

(** ** Sequences of calls on one object *)

(** Successive [submitDomainOffer] calls on one domain, each with the
    clock reading of its call; the results are collected in order. *)
Fixpoint submit_all (P : Platform) (domain : string)
    (calls : list (string * OfferInput)) : DO.t (list SubmitResult) :=
  match calls with
  | [] => DO.ret []
  | (now, offer) :: rest =>
      r <- submitDomainOffer P now domain offer ;;
      rs <- submit_all P domain rest ;;
      DO.ret (r :: rs)
  end.

(** Successive [trackDomainRequest] calls on one domain. *)
Fixpoint track_all (P : Platform) (domain : string) (nows : list string)
  : DO.t (list TrackResult) :=
  match nows with
  | [] => DO.ret []
  | now :: rest =>
      r <- trackDomainRequest P now domain ;;
      rs <- track_all P domain rest ;;
      DO.ret (r :: rs)
  end.

(** The offer the call [(now, offer)] is to create: the email, amount
    and description of its input and the clock reading of the call. *)
Definition stamp (call : string * OfferInput) : DomainOffer :=
  {| email := in_email call.2;
     amount := in_amount call.2;
     description := in_description call.2;
     timestamp := call.1 |}.

(** The results of a run of [submitDomainOffer] calls that starts with
    [n] offers stored. *)
Fixpoint submit_results (domain : string) (n : nat)
    (calls : list (string * OfferInput)) : list SubmitResult :=
  match calls with
  | [] => []
  | call :: rest =>
      {| sr_domain := domain;
         sr_offer := stamp call;
         sr_totalOffers := S n |} :: submit_results domain (S n) rest
  end.

(** The results of a run of [trackDomainRequest] calls that starts with
    the count [z] stored. *)
Fixpoint track_results (domain : string) (z : Z) (nows : list string)
  : list TrackResult :=
  match nows with
  | [] => []
  | now :: rest =>
      {| tr_domain := domain;
         tr_requests := Num (z + 1);
         tr_timestamp := now |} :: track_results domain (z + 1) rest
  end.

(** The offers a storage holds for a domain, as the offer methods read
    them. *)
Definition holds_offers (domain : string) (st : gmap string stored)
    (l : list DomainOffer) : Prop :=
  or_default (st !! storage_key domain) (SOffers []) = SOffers l.

(** The count a storage holds for a domain, as the counter methods read
    it. *)
Definition holds_count (domain : string) (st : gmap string stored)
    (z : Z) : Prop :=
  or_default (st !! storage_key domain) (SNumber (Num 0)) = SNumber (Num z).

(** ** Vocabulary of the router's properties *)

(** A response carries the CORS header set. *)
Definition carries_cors (r : Response) : Prop :=
  incl corsHeaders (headers r).

(** The text of [s] before its first space, all of [s] when it has
    none. *)
Fixpoint until_space (s : string) : string :=
  match s with
  | EmptyString => ""
  | String c rest =>
      if Ascii.eqb c " " then "" else String c (until_space rest)
  end.

(** The text of [s] after its first space, if it has one. *)
Fixpoint after_space (s : string) : option string :=
  match s with
  | EmptyString => None
  | String c rest => if Ascii.eqb c " " then Some rest else after_space rest
  end.

(** The bearer token of an Authorization header in the specification's
    words: for a header that starts with ["Bearer "], the text between
    its first space and its second space, or the end of the header. *)
Definition bearer_token (h : string) : option string :=
  if String.prefix "Bearer " h then until_space <$> after_space h else None.

(** The string has no space character. *)
Fixpoint no_space (s : string) : bool :=
  match s with
  | EmptyString => true
  | String c rest => negb (Ascii.eqb c " ") && no_space rest
  end.

(** The 401 response. *)
Definition unauthorized_response : Response :=
  {| status := 401; body := BodyText "Unauthorized"; headers := jsonHeaders |}.

(** ** Worked inputs *)

(** The bytes of the strings of an offer: less than its serialized
    form takes. *)
Definition string_bytes (v : value) : Z :=
  match v with
  | VStr s => Z.of_nat (String.length s)
  | _ => 0
  end.

Definition offer_bytes (o : DomainOffer) : Z :=
  string_bytes (email o) + string_bytes (amount o)
  + string_bytes (description o) + Z.of_nat (String.length (timestamp o)).

Fixpoint offers_bytes (l : list DomainOffer) : Z :=
  match l with
  | [] => 0
  | o :: rest => offer_bytes o + offers_bytes rest
  end.

(** A platform that refuses the lists whose strings alone pass the
    131072 bytes of the value limit (the real one refuses these and
    more), and serializes every argument. *)
Definition example_platform : Platform :=
  {| put_accepts := fun l => (offers_bytes l <=? 131072)%Z;
     call_accepts := fun _ => true |}.

(** A string of [n] letters. *)
Definition letters (n : positive) : string :=
  Pos.iter (String "a"%char) "" n.

(** An offer whose email has 131073 letters. *)
Definition oversized_offer : OfferInput :=
  {| in_email := VStr (letters 131073);
     in_amount := VNum (Num 500);
     in_description := VUndefined |}.

(** The secret of [wrangler.toml]. *)
Definition example_env : Env := {| AUTH_TOKEN := "YELLOW_BEAR_SUN" |}.

(** A secret with a space in it. *)
Definition spaced_env : Env := {| AUTH_TOKEN := "a b" |}.

Definition example_offer : OfferInput :=
  {| in_email := VStr "a@b.com";
     in_amount := VNum (Num 500);
     in_description := VUndefined |}.

Definition second_offer : OfferInput :=
  {| in_email := VStr "c@d.org";
     in_amount := VNum (Num 750);
     in_description := VStr "for the blog" |}.

Definition example_calls : list (string * OfferInput) :=
  [ ("2025-01-01T00:00:00.000Z", example_offer);
    ("2025-01-02T00:00:00.000Z", second_offer) ].

(** [OPTIONS /] without credentials. *)
Definition options_request : Request :=
  {| method := "OPTIONS";
     authorization := None;
     domain_param := None;
     json := None |}.

(** [GET /?domain=example.com] with the secret. *)
Definition get_request : Request :=
  {| method := "GET";
     authorization := Some "Bearer YELLOW_BEAR_SUN";
     domain_param := Some "example.com";
     json := None |}.

(** [GET /] with the secret and no [domain] parameter. *)
Definition get_without_domain : Request :=
  {| method := "GET";
     authorization := Some "Bearer YELLOW_BEAR_SUN";
     domain_param := None;
     json := None |}.

(** [GET /?domain=example.com] with a wrong token. *)
Definition get_wrong_token : Request :=
  {| method := "GET";
     authorization := Some "Bearer RED_FOX_MOON";
     domain_param := Some "example.com";
     json := None |}.

(** [GET /?domain=example.com] with text after the token. *)
Definition get_trailing : Request :=
  {| method := "GET";
     authorization := Some "Bearer YELLOW_BEAR_SUN and more";
     domain_param := Some "example.com";
     json := None |}.

(** The same shape of header for the secret ["a b"]. *)
Definition get_trailing_spaced : Request :=
  {| method := "GET";
     authorization := Some "Bearer a b x";
     domain_param := Some "example.com";
     json := None |}.

(** [POST /?domain=example.com] with the secret and the body [{}]. *)
Definition post_empty_object : Request :=
  {| method := "POST";
     authorization := Some "Bearer YELLOW_BEAR_SUN";
     domain_param := Some "example.com";
     json := Some (VObj []) |}.

(** [POST /?domain=example.com] with the secret and the body
    [{"email":"a@b.com","amount":500}]. *)
Definition post_example : Request :=
  {| method := "POST";
     authorization := Some "Bearer YELLOW_BEAR_SUN";
     domain_param := Some "example.com";
     json := Some (VObj [("email", VStr "a@b.com");
                         ("amount", VNum (Num 500))]) |}.

(** [POST /?domain=example.com] with the secret and the body [null]. *)
Definition post_null : Request :=
  {| method := "POST";
     authorization := Some "Bearer YELLOW_BEAR_SUN";
     domain_param := Some "example.com";
     json := Some VNull |}.

(** A storage in which [trackDomainRequest] ran once for
    ["example.com"]. *)
Definition counted_once : gmap string stored :=
  {[ storage_key "example.com" := SNumber (Num 1) ]}.

(** ** Serving several requests *)

(** The runtime hands the requests to [fetch] one after the other, each
    with the clock reading of its turn; the responses are collected in
    order and the ledger calls are appended. *)
Fixpoint serve (P : Platform) (env : Env) (reqs : list (Request * string))
    (w : World) : list (outcome Response) * World * list RpcCall :=
  match reqs with
  | [] => ([], w, [])
  | (request, now) :: rest =>
      let '(r, w', calls) := fetch P request env now w in
      let '(rs, w'', calls') := serve P env rest w' in
      (r :: rs, w'', calls ++ calls')
  end.

(** The argument [{ email, amount, description }] the router builds
    from a parsed body. *)
Definition offer_of (parsed : value) : OfferInput :=
  {| in_email := get_prop "email" parsed;
     in_amount := get_prop "amount" parsed;
     in_description := get_prop "description" parsed |}.

(** The offer a POST request served at [now] is to store: the email,
    amount and description properties of its parsed body and the clock
    reading of its turn. *)
Definition posted (rn : Request * string) : DomainOffer :=
  {| email := get_prop "email" (default VUndefined (json rn.1));
     amount := get_prop "amount" (default VUndefined (json rn.1));
     description := get_prop "description" (default VUndefined (json rn.1));
     timestamp := rn.2 |}.

(** An authorized POST for [domain] whose body has a truthy email and a
    truthy amount. *)
Definition valid_post (env : Env) (domain : string) (request : Request)
  : bool :=
  String.eqb (method request) "POST"
  && negb (unauthorized env (authorization request))
  && match domain_param request with
     | Some d => String.eqb d domain
     | None => false
     end
  && truthy (get_prop "email" (default VUndefined (json request)))
  && truthy (get_prop "amount" (default VUndefined (json request))).

(** An authorized request for [domain] that is neither a POST nor an
    OPTIONS. *)
Definition valid_read (env : Env) (domain : string) (request : Request)
  : bool :=
  negb (String.eqb (method request) "OPTIONS")
  && negb (String.eqb (method request) "POST")
  && negb (unauthorized env (authorization request))
  && match domain_param request with
     | Some d => String.eqb d domain
     | None => false
     end.

(** The responses to a run of valid POSTs for [domain] that starts with
    [n] offers stored. *)
Fixpoint post_responses (domain : string) (n : nat)
    (reqs : list (Request * string)) : list (outcome Response) :=
  match reqs with
  | [] => []
  | rn :: rest =>
      Returned {| status := 200;
                  body := BodyJson (JsonSubmit
                            {| sr_domain := domain;
                               sr_offer := posted rn;
                               sr_totalOffers := S n |});
                  headers := jsonHeaders |}
      :: post_responses domain (S n) rest
  end.

(** An offer that passes the router's presence checks. *)
Definition valid_offer (o : DomainOffer) : bool :=
  truthy (email o) && truthy (amount o).

(** What the storages hold when only the router has written to them:
    the object ["domain-offers:<d>"] has at most the entry
    ["domain:<d>"], a non-empty list of offers that passed the presence
    checks. *)
Definition router_storage (w : World) : Prop :=
  forall i k v, w i !! k = Some v ->
    exists d l,
      i = instance_name d /\ k = storage_key d /\ d <> ""
      /\ v = SOffers l /\ l <> []
      /\ Forall (fun o => valid_offer o = true) l.

(** The rest of the worked inputs. *)

(** A storage holding the two offers of [example_calls]. *)
Definition two_offers : gmap string stored :=
  {[ storage_key "example.com" := SOffers (map stamp example_calls) ]}.

(** A world in which the object of ["example.com"] counted once. *)
Definition counted_world : World :=
  fun i => if String.eqb i (instance_name "example.com")
           then counted_once else ∅.

(** [post_example] with more properties in the body. *)
Definition post_example_extras : Request :=
  {| method := "POST";
     authorization := Some "Bearer YELLOW_BEAR_SUN";
     domain_param := Some "example.com";
     json := Some (VObj [("timestamp", VStr "1999-01-01T00:00:00.000Z");
                         ("email", VStr "a@b.com");
                         ("admin", VBool true);
                         ("amount", VNum (Num 500))]) |}.

(** A world in which the object of ["example.com"] holds the two
    offers of [example_calls]. *)
Definition two_offers_world : World :=
  fun i => if String.eqb i (instance_name "example.com")
           then two_offers else ∅.

(** [POST /?domain=other.org] with the secret and an offer. *)
Definition post_other_domain : Request :=
  {| method := "POST";
     authorization := Some "Bearer YELLOW_BEAR_SUN";
     domain_param := Some "other.org";
     json := Some (VObj [("email", VStr "e@f.net");
                         ("amount", VNum (Num 20))]) |}.

(** Two valid POSTs for ["example.com"]. *)
Definition example_run : list (Request * string) :=
  [ (post_example, "2025-01-01T00:00:00.000Z");
    (post_example_extras, "2025-01-02T00:00:00.000Z") ].

(** A run without a POST. *)
Definition reading_run : list (Request * string) :=
  [ (get_request, "2025-01-03T00:00:00.000Z");
    (options_request, "2025-01-03T00:00:01.000Z");
    (get_wrong_token, "2025-01-03T00:00:02.000Z") ].

(** ** Properties of the Durable Object *)

Lemma storage_key_inj d1 d2 : storage_key d1 = storage_key d2 -> d1 = d2.
Proof. unfold storage_key. intros H. simpl in H. by injection H. Qed.

Section Ledger.

Variable P : Platform.
Variable domain : string.

Lemma absent_holds_no_offers st :
  st !! storage_key domain = None -> holds_offers domain st [].
Proof. unfold holds_offers. by intros ->. Qed.

Lemma absent_holds_zero st :
  st !! storage_key domain = None -> holds_count domain st 0.
Proof. unfold holds_count. by intros ->. Qed.

Lemma holds_offers_insert st l :
  holds_offers domain (<[storage_key domain := SOffers l]> st) l.
Proof. unfold holds_offers. by rewrite lookup_insert_eq. Qed.

Lemma getDomainOffers_reads st :
  getDomainOffers domain st
  = (Returned (or_default (st !! storage_key domain) (SOffers [])), st).
Proof. reflexivity. Qed.

Lemma getDomainRequests_reads st :
  getDomainRequests domain st
  = (Returned (or_default (st !! storage_key domain) (SNumber (Num 0))), st).
Proof. reflexivity. Qed.

(** The whole of [submitDomainOffer]: [push] fails on a number, [put]
    fails on a list the platform refuses, and otherwise the list grows
    by the new offer. *)
Lemma submitDomainOffer_runs now offer st :
  submitDomainOffer P now domain offer st
  = match or_default (st !! storage_key domain) (SOffers []) with
    | SOffers l =>
        if put_accepts P (l ++ [newOffer offer now])
        then (Returned {| sr_domain := domain;
                          sr_offer := newOffer offer now;
                          sr_totalOffers := S (List.length l) |},
              <[storage_key domain := SOffers (l ++ [newOffer offer now])]> st)
        else (Thrown (JsError "Values cannot be larger than 131072 bytes"),
              st)
    | SNumber _ => (Thrown (TypeError "offers.push is not a function"), st)
    end.
Proof.
  unfold submitDomainOffer, DO.bind, DO.storage_get, DO.storage_put. cbn.
  destruct (or_default _ _) as [n|l]; cbn; [done|].
  destruct (put_accepts P _); [|done].
  by rewrite length_app, Nat.add_1_r.
Qed.

Lemma submitDomainOffer_appends now offer st l :
  holds_offers domain st l ->
  put_accepts P (l ++ [newOffer offer now]) = true ->
  submitDomainOffer P now domain offer st
  = (Returned {| sr_domain := domain;
                 sr_offer := newOffer offer now;
                 sr_totalOffers := S (List.length l) |},
     <[storage_key domain := SOffers (l ++ [newOffer offer now])]> st).
Proof.
  unfold holds_offers. intros Hl Hfits.
  by rewrite submitDomainOffer_runs, Hl, Hfits.
Qed.

Lemma submitDomainOffer_refused now offer st l :
  holds_offers domain st l ->
  put_accepts P (l ++ [newOffer offer now]) = false ->
  submitDomainOffer P now domain offer st
  = (Thrown (JsError "Values cannot be larger than 131072 bytes"), st).
Proof.
  unfold holds_offers. intros Hl Hfits.
  by rewrite submitDomainOffer_runs, Hl, Hfits.
Qed.

Lemma submit_all_run calls : forall st l,
  holds_offers domain st l ->
  (forall j, 1 <= j <= List.length calls ->
     put_accepts P (l ++ map stamp (take j calls)) = true) ->
  exists st',
    submit_all P domain calls st
    = (Returned (submit_results domain (List.length l) calls), st')
    /\ holds_offers domain st' (l ++ map stamp calls)
    /\ forall k, k <> storage_key domain -> st' !! k = st !! k.
Proof.
  induction calls as [|[now offer] rest IH]; intros st l Hl Hfits.
  - exists st. cbn. rewrite app_nil_r. auto.
  - assert (Hfirst : put_accepts P (l ++ [newOffer offer now]) = true).
    { apply (Hfits 1). cbn. lia. }
    destruct (IH (<[storage_key domain := SOffers (l ++ [newOffer offer now])]> st)
                (l ++ [newOffer offer now]))
      as (st' & Hrun & Hst' & Hframe).
    { apply holds_offers_insert. }
    { intros j Hj. rewrite <- app_assoc. apply (Hfits (S j)). cbn. lia. }
    exists st'. split; [|split].
    + cbn [submit_all]. unfold DO.bind at 1.
      rewrite (submitDomainOffer_appends now offer st l Hl Hfirst).
      unfold DO.bind at 1. rewrite Hrun.
      rewrite length_app, Nat.add_1_r. reflexivity.
    + rewrite <- app_assoc in Hst'. exact Hst'.
    + intros k Hk. rewrite Hframe by done. by rewrite lookup_insert_ne.
Qed.

Lemma submit_results_length n calls :
  List.length (submit_results domain n calls) = List.length calls.
Proof. revert n. induction calls; intros; cbn; auto. Qed.

Lemma submit_results_lookup calls : forall n i r,
  submit_results domain n calls !! i = Some r ->
  sr_totalOffers r = S (n + i)
  /\ exists call, calls !! i = Some call /\ sr_offer r = stamp call.
Proof.
  induction calls as [|c rest IH]; intros n i r; [done|].
  destruct i as [|i]; cbn.
  - intros [= <-]. cbn. rewrite Nat.add_0_r. eauto.
  - intros H. apply IH in H as [-> H]. split; [lia | done].
Qed.

(** C1, as the code has it. Starting from an absent storage entry,
    run the first [k] of a sequence of [submitDomainOffer] calls on a
    domain, the storage accepting the list each of them puts. The run
    returns; the [i]-th call (from 0) returns [totalOffers = i + 1] and
    an offer with the email, amount and description of its input;
    afterwards [getDomainOffers] returns the [k] offers in submission
    order and changes nothing. One more call appends exactly one offer
    after them, leaving them as they are, when the storage accepts the
    longer list; when it refuses, the call throws and the storage is as
    it was. *)
Theorem submit_sequence_appends (calls : list (string * OfferInput))
    (st : gmap string stored) (k : nat) :
  st !! storage_key domain = None ->
  k <= List.length calls ->
  (forall j, 1 <= j <= k ->
     put_accepts P (map stamp (take j calls)) = true) ->
  exists results st_k,
    submit_all P domain (take k calls) st = (Returned results, st_k)
    /\ List.length results = k
    /\ (forall i r, results !! i = Some r ->
          sr_totalOffers r = S i
          /\ exists now offer,
               calls !! i = Some (now, offer)
               /\ email (sr_offer r) = in_email offer
               /\ amount (sr_offer r) = in_amount offer
               /\ description (sr_offer r) = in_description offer)
    /\ getDomainOffers domain st_k
       = (Returned (SOffers (map stamp (take k calls))), st_k)
    /\ (forall now offer, calls !! k = Some (now, offer) ->
          (put_accepts P (map stamp (take (S k) calls)) = true ->
           exists r st',
             submitDomainOffer P now domain offer st_k = (Returned r, st')
             /\ sr_totalOffers r = S k
             /\ getDomainOffers domain st'
                = (Returned (SOffers (map stamp (take k calls)
                                      ++ [stamp (now, offer)])), st'))
          /\ (put_accepts P (map stamp (take (S k) calls)) = false ->
              exists e,
                submitDomainOffer P now domain offer st_k = (Thrown e, st_k))).
Proof.
  intros Habsent Hk Hfits.
  destruct (submit_all_run (take k calls) st []
              (absent_holds_no_offers _ Habsent))
    as (st_k & Hrun & Hheld & _).
  { intros j Hj. rewrite length_take in Hj. cbn [app].
    rewrite take_take, Nat.min_l by lia. apply Hfits. lia. }
  cbn [List.length app] in Hrun, Hheld.
  exists (submit_results domain 0 (take k calls)), st_k.
  split; [exact Hrun|]. split.
  { rewrite submit_results_length, length_take. lia. }
  split.
  { intros i r Hr. apply submit_results_lookup in Hr as (-> & [now offer] & Hc & ->).
    split; [done|]. exists now, offer.
    apply lookup_take_Some in Hc as [Hc _]. by rewrite Hc. }
  split.
  { rewrite getDomainOffers_reads. by rewrite Hheld. }
  intros now offer Hc.
  rewrite (take_S_r _ _ _ Hc), map_app. cbn [map].
  change (stamp (now, offer)) with (newOffer offer now).
  split; intros Hput.
  - eexists _, _.
    split; [apply submitDomainOffer_appends; [exact Hheld | exact Hput]|].
    split.
    { cbn. rewrite length_map, length_take. f_equal. lia. }
    rewrite getDomainOffers_reads, lookup_insert_eq. reflexivity.
  - eexists. by apply submitDomainOffer_refused with (l := map stamp (take k calls)).
Qed.

Lemma trackDomainRequest_increments now st z :
  holds_count domain st z ->
  trackDomainRequest P now domain st
  = (Returned {| tr_domain := domain;
                 tr_requests := Num (z + 1);
                 tr_timestamp := now |},
     <[storage_key domain := SNumber (Num (z + 1))]> st).
Proof.
  unfold holds_count, trackDomainRequest, DO.bind, DO.storage_get.
  intros ->. reflexivity.
Qed.

Lemma holds_count_insert st z :
  holds_count domain (<[storage_key domain := SNumber (Num z)]> st) z.
Proof.
  unfold holds_count. rewrite lookup_insert_eq. cbn.
  destruct (Z.eqb_spec z 0) as [->|]; reflexivity.
Qed.

Lemma track_all_run nows : forall st z,
  holds_count domain st z ->
  exists st',
    track_all P domain nows st = (Returned (track_results domain z nows), st')
    /\ holds_count domain st' (z + Z.of_nat (List.length nows))
    /\ forall k, k <> storage_key domain -> st' !! k = st !! k.
Proof.
  induction nows as [|now rest IH]; intros st z Hz.
  - exists st. cbn. rewrite Z.add_0_r. auto.
  - destruct (IH (<[storage_key domain := SNumber (Num (z + 1))]> st) (z + 1)%Z)
      as (st' & Hrun & Hst' & Hframe).
    { apply holds_count_insert. }
    exists st'. split; [|split].
    + cbn [track_all]. unfold DO.bind at 1.
      rewrite (trackDomainRequest_increments now st z Hz).
      unfold DO.bind at 1. rewrite Hrun. reflexivity.
    + replace (z + Z.of_nat (List.length (now :: rest)))%Z
        with (z + 1 + Z.of_nat (List.length rest))%Z; [done|].
      cbn [List.length]. lia.
    + intros k Hk. rewrite Hframe by done. by rewrite lookup_insert_ne.
Qed.

Lemma track_results_length z nows :
  List.length (track_results domain z nows) = List.length nows.
Proof. revert z. induction nows; intros; cbn; auto. Qed.

Lemma track_results_lookup nows : forall z i r,
  track_results domain z nows !! i = Some r ->
  tr_requests r = Num (z + Z.of_nat (S i)).
Proof.
  induction nows as [|c rest IH]; intros z i r; [done|].
  destruct i as [|i]; cbn [track_results].
  - intros [= <-]. reflexivity.
  - intros H. apply IH in H as ->. f_equal. lia.
Qed.

(** C5. Starting from an absent storage entry, [getDomainRequests]
    returns 0; a run of [n] [trackDomainRequest] calls returns, its
    [i]-th call (from 1) returns the count [i], and afterwards
    [getDomainRequests] returns [n]. *)
Theorem track_sequence_counts (nows : list string)
    (st : gmap string stored) :
  st !! storage_key domain = None ->
  getDomainRequests domain st = (Returned (SNumber (Num 0)), st)
  /\ exists results st_n,
       track_all P domain nows st = (Returned results, st_n)
       /\ List.length results = List.length nows
       /\ (forall i r, results !! i = Some r ->
             tr_requests r = Num (Z.of_nat (S i)))
       /\ getDomainRequests domain st_n
          = (Returned (SNumber (Num (Z.of_nat (List.length nows)))), st_n).
Proof.
  intros Habsent. split.
  { rewrite getDomainRequests_reads. by rewrite Habsent. }
  destruct (track_all_run nows st 0 (absent_holds_zero _ Habsent))
    as (st_n & Hrun & Hheld & _).
  exists (track_results domain 0 nows), st_n.
  split; [exact Hrun|]. split; [apply track_results_length|]. split.
  { intros i r Hr. by apply track_results_lookup in Hr as ->. }
  rewrite getDomainRequests_reads. unfold holds_count in Hheld.
  by rewrite Hheld.
Qed.

(** C9. [getDomainRequests] and [getDomainOffers] return a value and
    leave the whole storage as it was. *)
Theorem reads_leave_storage (st : gmap string stored) :
  (exists count, getDomainRequests domain st = (Returned count, st))
  /\ (exists offers, getDomainOffers domain st = (Returned offers, st)).
Proof.
  split; eexists.
  - apply getDomainRequests_reads.
  - apply getDomainOffers_reads.
Qed.

End Ledger.

(** ** One key for two uses *)

Section SharedKey.

Variable P : Platform.
Variables (domain now : string) (offer : OfferInput).
Variable st : gmap string stored.

Lemma trackDomainRequest_runs :
  trackDomainRequest P now domain st
  = (let requests :=
       number_succ
         (to_number (or_default (st !! storage_key domain) (SNumber (Num 0)))) in
     (Returned {| tr_domain := domain;
                  tr_requests := requests;
                  tr_timestamp := now |},
      <[storage_key domain := SNumber requests]> st)).
Proof. reflexivity. Qed.

Lemma submitDomainOffer_frame k :
  k <> storage_key domain ->
  (submitDomainOffer P now domain offer st).2 !! k = st !! k.
Proof.
  intros Hk. rewrite submitDomainOffer_runs.
  destruct (or_default _ _) as [n|l]; [done|].
  destruct (put_accepts P _); [|done]. cbn [snd]. by rewrite lookup_insert_ne.
Qed.

Lemma submitDomainOffer_on_number n :
  st !! storage_key domain = Some (SNumber n) ->
  submitDomainOffer P now domain offer st
  = if number_truthy n
    then (Thrown (TypeError "offers.push is not a function"), st)
    else if put_accepts P [newOffer offer now]
    then (Returned {| sr_domain := domain;
                      sr_offer := newOffer offer now;
                      sr_totalOffers := 1 |},
          <[storage_key domain := SOffers [newOffer offer now]]> st)
    else (Thrown (JsError "Values cannot be larger than 131072 bytes"), st).
Proof.
  intros H. rewrite submitDomainOffer_runs, H. cbn.
  by destruct (number_truthy n).
Qed.

(** C2, as the code has it. The four methods read only the entry under
    ["domain:<name>"] and write no other entry. [trackDomainRequest]
    replaces a stored offer list by a number ([NaN] when the list is not
    empty). [submitDomainOffer] replaces a stored number by a one-offer
    list only when the number is falsy (0 or [NaN]) and the storage
    accepts the list; on any other stored number it throws a
    [TypeError] and leaves the storage as it was. *)
Theorem shared_key_effects :
  (forall k, k <> storage_key domain ->
     (trackDomainRequest P now domain st).2 !! k = st !! k
     /\ (getDomainRequests domain st).2 !! k = st !! k
     /\ (submitDomainOffer P now domain offer st).2 !! k = st !! k
     /\ (getDomainOffers domain st).2 !! k = st !! k)
  /\ (forall st2 : gmap string stored,
        st2 !! storage_key domain = st !! storage_key domain ->
        (trackDomainRequest P now domain st2).1
          = (trackDomainRequest P now domain st).1
        /\ (getDomainRequests domain st2).1 = (getDomainRequests domain st).1
        /\ (submitDomainOffer P now domain offer st2).1
           = (submitDomainOffer P now domain offer st).1
        /\ (getDomainOffers domain st2).1 = (getDomainOffers domain st).1)
  /\ (forall l, st !! storage_key domain = Some (SOffers l) ->
        exists r requests,
          trackDomainRequest P now domain st
          = (Returned r, <[storage_key domain := SNumber requests]> st)
          /\ (l <> [] -> requests = NaN))
  /\ (forall n, st !! storage_key domain = Some (SNumber n) ->
        submitDomainOffer P now domain offer st
        = if number_truthy n
          then (Thrown (TypeError "offers.push is not a function"), st)
          else if put_accepts P [newOffer offer now]
          then (Returned {| sr_domain := domain;
                            sr_offer := newOffer offer now;
                            sr_totalOffers := 1 |},
                <[storage_key domain := SOffers [newOffer offer now]]> st)
          else (Thrown (JsError "Values cannot be larger than 131072 bytes"),
                st)).
Proof.
  split; [|split; [|split]].
  - intros k Hk. split; [|split; [|split]].
    + rewrite trackDomainRequest_runs. cbn. by rewrite lookup_insert_ne.
    + by rewrite getDomainRequests_reads.
    + by apply submitDomainOffer_frame.
    + by rewrite getDomainOffers_reads.
  - intros st2 H. split; [|split; [|split]].
    + unfold trackDomainRequest, DO.bind, DO.storage_get. cbn. by rewrite H.
    + rewrite !getDomainRequests_reads. cbn. by rewrite H.
    + rewrite !submitDomainOffer_runs, H.
      destruct (or_default _ _) as [n|l]; [done|].
      by destruct (put_accepts P _).
    + rewrite !getDomainOffers_reads. cbn. by rewrite H.
  - intros l Hl. rewrite trackDomainRequest_runs, Hl. cbn.
    eexists _, _. split; [reflexivity|]. by destruct l.
  - apply submitDomainOffer_on_number.
Qed.

End SharedKey.

(** C2 as stated fails: after one [trackDomainRequest] the entry holds
    the count 1; [submitDomainOffer] on the same domain then throws and
    the entry still holds the count. *)
Lemma submit_keeps_nonzero_counter :
  (trackDomainRequest example_platform "t0" "example.com" ∅).2 = counted_once
  /\ counted_once !! storage_key "example.com" = Some (SNumber (Num 1))
  /\ submitDomainOffer example_platform "t1" "example.com" example_offer
       counted_once
     = (Thrown (TypeError "offers.push is not a function"), counted_once)
  /\ ~ (exists l,
          (submitDomainOffer example_platform "t1" "example.com"
             example_offer counted_once).2
            !! storage_key "example.com" = Some (SOffers l)).
Proof.
  split; [|split; [|split]].
  - reflexivity.
  - reflexivity.
  - reflexivity.
  - intros [l H]. vm_compute in H. discriminate.
Qed.

(** ** The authorization check *)

Lemma js_split_space s :
  js_split " " s
  = until_space s :: match after_space s with
                     | Some rest => js_split " " rest
                     | None => []
                     end.
Proof.
  induction s as [|c rest IH]; [reflexivity|].
  cbn [js_split until_space after_space].
  destruct (Ascii.eqb c " "); [reflexivity|].
  rewrite IH. reflexivity.
Qed.

Lemma js_split_second s :
  js_split " " s !! 1%nat = until_space <$> after_space s.
Proof.
  rewrite js_split_space. destruct (after_space s) as [rest|]; [|reflexivity].
  rewrite js_split_space. reflexivity.
Qed.

Lemma strict_neq_false x t : strict_neq x t = false <-> x = Some t.
Proof.
  destruct x as [s|]; cbn; [|done].
  rewrite negb_false_iff, String.eqb_eq. split; congruence.
Qed.

Lemma authorized_iff env h :
  unauthorized env (Some h) = false <-> bearer_token h = Some (AUTH_TOKEN env).
Proof.
  unfold unauthorized, bearer_token. rewrite js_split_second.
  destruct h as [|c h']; [done|].
  change (String.eqb (String c h') "") with false. rewrite orb_false_l.
  destruct (String.prefix "Bearer " (String c h')); cbn [negb orb].
  - apply strict_neq_false.
  - done.
Qed.

Lemma until_space_app secret rest :
  no_space secret = true -> until_space (secret +:+ " " +:+ rest) = secret.
Proof.
  induction secret as [|c secret IH]; [reflexivity|].
  change (String c secret +:+ " " +:+ rest)
    with (String c (secret +:+ " " +:+ rest)).
  cbn [no_space until_space]. destruct (Ascii.eqb c " "); [done|].
  cbn [negb andb]. intros H. f_equal. by apply IH.
Qed.

Lemma bearer_prefix x : String.prefix "Bearer " ("Bearer " +:+ x) = true.
Proof. destruct x; reflexivity. Qed.

Lemma bearer_after_space x : after_space ("Bearer " +:+ x) = Some x.
Proof. reflexivity. Qed.

Lemma bearer_token_trailing secret rest :
  no_space secret = true ->
  bearer_token ("Bearer " +:+ secret +:+ " " +:+ rest) = Some secret.
Proof.
  intros H. unfold bearer_token.
  rewrite bearer_prefix, bearer_after_space. cbn [fmap option_fmap option_map].
  by rewrite until_space_app.
Qed.

(** ** Properties of the router *)

Section Router.

Variable P : Platform.
Variables (request : Request) (env : Env) (now : string) (w : World).

Lemma fetch_options :
  method request = "OPTIONS" ->
  fetch P request env now w
  = (Returned (new_Response BodyNull None corsHeaders), w, []).
Proof. intros H. unfold fetch. by rewrite H. Qed.

Lemma fetch_unauthorized :
  method request <> "OPTIONS" ->
  unauthorized env (authorization request) = true ->
  fetch P request env now w = (Returned unauthorized_response, w, []).
Proof.
  intros Hm Hu. unfold fetch. apply String.eqb_neq in Hm.
  by rewrite Hm, Hu.
Qed.

(** Past the authorization check, [fetch] is its dispatch on the
    [domain] parameter and the method. *)
Lemma fetch_authorized :
  method request <> "OPTIONS" ->
  unauthorized env (authorization request) = false ->
  fetch P request env now w
  = match domain_param request with
    | None | Some "" =>
        (Returned (new_Response (BodyText "Domain parameter is required")
                                (Some 400) []), w, [])
    | Some domain =>
        if String.eqb (method request) "POST" then
          match post_try P request domain now w with
          | (Returned response, w', calls) => (Returned response, w', calls)
          | (Thrown _, w', calls) =>
              (Returned (new_Response (BodyText "Invalid request body")
                                      (Some 400) corsHeaders), w', calls)
          end
        else
          let call := CallGetDomainOffers (instance_name domain) domain in
          match rpc true (instance_name domain) (getDomainOffers domain) w with
          | (Returned offers, w') =>
              (Returned (new_Response (BodyJson (JsonOffers domain offers))
                                      None jsonHeaders), w', [call])
          | (Thrown e, w') => (Thrown e, w', [call])
          end
    end.
Proof.
  intros Hm Hu. unfold fetch. apply String.eqb_neq in Hm.
  by rewrite Hm, Hu.
Qed.

Lemma post_try_status domain r w' calls :
  post_try P request domain now w = (Returned r, w', calls) ->
  status r = 400 \/ status r = 200.
Proof.
  unfold post_try. repeat case_match; intros [= <- _ _]; cbn; auto.
Qed.

Lemma fetch_authorized_not_401 r :
  method request <> "OPTIONS" ->
  unauthorized env (authorization request) = false ->
  (fetch P request env now w).1.1 = Returned r ->
  status r <> 401.
Proof.
  intros Hm Hu. rewrite (fetch_authorized Hm Hu).
  destruct (domain_param request) as [[|c d]|]; cbn [fst];
    try (intros [= <-]; cbn; lia).
  destruct (String.eqb (method request) "POST").
  - destruct (post_try P request (String c d) now w) as [[[r'|e] w'] calls] eqn:E;
      cbn [fst].
    + intros [= <-]. apply post_try_status in E as [-> | ->]; lia.
    + intros [= <-]. cbn. lia.
  - cbn zeta. destruct (rpc _ _ _) as [[o|e] w']; cbn [fst]; [|done].
    intros [= <-]. cbn. lia.
Qed.

Lemma jsonHeaders_cors (r : Response) :
  headers r = jsonHeaders -> carries_cors r.
Proof. unfold carries_cors. intros ->. apply incl_appl, incl_refl. Qed.

Lemma corsHeaders_cors (r : Response) :
  headers r = corsHeaders -> carries_cors r.
Proof. unfold carries_cors. intros ->. apply incl_refl. Qed.

Lemma post_try_cors domain r w' calls :
  post_try P request domain now w = (Returned r, w', calls) ->
  carries_cors r.
Proof.
  unfold post_try. repeat case_match; intros [= <- _ _];
    first [by apply corsHeaders_cors | by apply jsonHeaders_cors].
Qed.

(** Every response of [fetch] carries the CORS headers, except the one
    for a missing [domain] parameter. *)
Lemma fetch_cors_unless_missing_domain r :
  (fetch P request env now w).1.1 = Returned r ->
  carries_cors r \/ body r = BodyText "Domain parameter is required".
Proof.
  unfold fetch. destruct (String.eqb (method request) "OPTIONS").
  { intros [= <-]. left. by apply corsHeaders_cors. }
  destruct (unauthorized env (authorization request)).
  { intros [= <-]. left. by apply jsonHeaders_cors. }
  destruct (domain_param request) as [[|c d]|];
    try (intros [= <-]; by right).
  destruct (String.eqb (method request) "POST").
  - destruct (post_try P request (String c d) now w) as [[[r'|e] w'] calls] eqn:E;
      intros [= <-]; left.
    + by apply post_try_cors in E.
    + by apply corsHeaders_cors.
  - cbn zeta. destruct (rpc _ _ _) as [[o|e] w']; [|done].
    intros [= <-]. left. by apply jsonHeaders_cors.
Qed.

(** C8. An OPTIONS request, whatever its Authorization header and its
    parameters, gets the status 200, an empty body and exactly the four
    CORS headers (the allowed origin, the allowed methods
    GET,HEAD,POST,OPTIONS, the allowed headers
    Content-Type,Authorization and the max-age); no ledger method is
    called and every storage is as it was. *)
Theorem options_preflight :
  method request = "OPTIONS" ->
  exists response,
    fetch P request env now w = (Returned response, w, [])
    /\ status response = 200
    /\ body response = BodyNull
    /\ headers response
       = [ ("Access-Control-Allow-Origin", "https://agi-2025.com");
           ("Access-Control-Allow-Methods", "GET,HEAD,POST,OPTIONS");
           ("Access-Control-Allow-Headers", "Content-Type,Authorization");
           ("Access-Control-Max-Age", "86400") ]
    /\ carries_cors response.
Proof.
  intros H. eexists. split; [by apply fetch_options|].
  cbn. repeat split. apply incl_refl.
Qed.

(** C4. A request other than OPTIONS whose Authorization header is
    missing, or whose bearer token is not the configured secret, gets
    the status 401 and the body "Unauthorized", whatever its method,
    body and parameters; no ledger method is called and every storage
    is as it was. *)
Theorem unauthorized_is_401 :
  method request <> "OPTIONS" ->
  (authorization request = None
   \/ exists h, authorization request = Some h
        /\ bearer_token h <> Some (AUTH_TOKEN env)) ->
  exists response,
    fetch P request env now w = (Returned response, w, [])
    /\ status response = 401
    /\ body response = BodyText "Unauthorized".
Proof.
  intros Hm Hauth. exists unauthorized_response.
  split; [|done]. apply fetch_unauthorized; [done|].
  destruct Hauth as [-> | (h & -> & Hh)]; [done|].
  destruct (unauthorized env (Some h)) eqn:E; [done|].
  by apply authorized_iff in E.
Qed.

(** C10, as the code has it. A request other than OPTIONS passes the
    authorization check exactly when its Authorization header starts
    with "Bearer " and the text between the header's first space and its
    second space (or its end) is the configured secret. When the secret
    has no space in it, a header "Bearer <secret> <anything>" passes. *)
Theorem authorization_check :
  method request <> "OPTIONS" ->
  ((fetch P request env now w).1.1 <> Returned unauthorized_response
   <-> exists h, authorization request = Some h
         /\ String.prefix "Bearer " h = true
         /\ until_space <$> after_space h = Some (AUTH_TOKEN env))
  /\ (no_space (AUTH_TOKEN env) = true ->
      forall rest,
        authorization request
        = Some ("Bearer " +:+ AUTH_TOKEN env +:+ " " +:+ rest) ->
        (fetch P request env now w).1.1 <> Returned unauthorized_response).
Proof.
  intros Hm.
  assert (Hpass : unauthorized env (authorization request) = false ->
                  (fetch P request env now w).1.1 <> Returned unauthorized_response).
  { intros Hu E. by apply (fetch_authorized_not_401 _ Hm Hu) in E. }
  split; [split|].
  - intros Hne. destruct (authorization request) as [h|] eqn:Ea.
    + destruct (unauthorized env (Some h)) eqn:Eu.
      * exfalso. apply Hne. rewrite fetch_unauthorized; [done..|by rewrite Ea].
      * apply authorized_iff in Eu. unfold bearer_token in Eu.
        exists h. by destruct (String.prefix "Bearer " h).
    + exfalso. apply Hne. rewrite fetch_unauthorized; [done..|by rewrite Ea].
  - intros (h & Ea & Hp & Ht). apply Hpass. rewrite Ea.
    apply authorized_iff. unfold bearer_token. by rewrite Hp.
  - intros Hns rest Ea. apply Hpass. rewrite Ea.
    apply authorized_iff. by apply bearer_token_trailing.
Qed.

Lemma fetch_post domain :
  method request = "POST" ->
  unauthorized env (authorization request) = false ->
  domain_param request = Some domain ->
  domain <> "" ->
  fetch P request env now w
  = match post_try P request domain now w with
    | (Returned response, w', calls) => (Returned response, w', calls)
    | (Thrown _, w', calls) =>
        (Returned (new_Response (BodyText "Invalid request body")
                                (Some 400) corsHeaders), w', calls)
    end.
Proof.
  intros Hm Hu Hd Hne. rewrite fetch_authorized; [|by rewrite Hm|done].
  rewrite Hd, Hm. by destruct domain.
Qed.

(** C6, as the code has it. For an authorized POST request with a
    non-empty domain parameter: a body that is not parseable JSON, or
    that parses to [null], gets the status 400 and the body "Invalid
    request body"; a body that parses to another value whose email or
    amount is falsy (absent, empty, or the amount 0) gets the status 400
    and the body "Email and amount are required". In these cases no
    ledger method is called and every storage is as it was. *)
Theorem post_rejections (domain : string) :
  method request = "POST" ->
  unauthorized env (authorization request) = false ->
  domain_param request = Some domain ->
  domain <> "" ->
  (json request = None \/ json request = Some VNull ->
   fetch P request env now w
   = (Returned {| status := 400;
                  body := BodyText "Invalid request body";
                  headers := corsHeaders |}, w, []))
  /\ (forall parsed,
        json request = Some parsed ->
        parsed <> VNull ->
        parsed <> VUndefined ->
        truthy (get_prop "email" parsed) = false
        \/ truthy (get_prop "amount" parsed) = false ->
        fetch P request env now w
        = (Returned {| status := 400;
                       body := BodyText "Email and amount are required";
                       headers := corsHeaders |}, w, []))
  /\ (forall parsed,
        json request = Some parsed ->
        get_prop "amount" parsed = VNum (Num 0) ->
        fetch P request env now w
        = (Returned {| status := 400;
                       body := BodyText "Email and amount are required";
                       headers := corsHeaders |}, w, [])).
Proof.
  intros Hm Hu Hd Hne. rewrite (fetch_post domain Hm Hu Hd Hne).
  assert (Hreq : forall parsed,
    json request = Some parsed ->
    parsed <> VNull ->
    parsed <> VUndefined ->
    truthy (get_prop "email" parsed) = false
    \/ truthy (get_prop "amount" parsed) = false ->
    match post_try P request domain now w with
    | (Returned response, w', calls) => (Returned response, w', calls)
    | (Thrown _, w', calls) =>
        (Returned (new_Response (BodyText "Invalid request body")
                                (Some 400) corsHeaders), w', calls)
    end
    = (Returned {| status := 400;
                   body := BodyText "Email and amount are required";
                   headers := corsHeaders |}, w, [])).
  { intros parsed Hj Hnull Hundef Hfalsy. unfold post_try. rewrite Hj.
    assert (negb (truthy (get_prop "email" parsed))
            || negb (truthy (get_prop "amount" parsed)) = true) as Hcond.
    { destruct Hfalsy as [-> | ->]; [done | apply orb_true_r]. }
    destruct parsed; try done; cbn [destructure]; by rewrite Hcond. }
  split; [|split].
  - unfold post_try. by intros [-> | ->].
  - exact Hreq.
  - intros parsed Hj Hamount. apply (Hreq parsed); [done| | |].
    + by intros ->.
    + by intros ->.
    + right. by rewrite Hamount.
Qed.

(** C7. An authorized request with a non-empty domain parameter and a
    method other than POST and OPTIONS calls [getDomainOffers] on the
    object named after the domain, once, and gets the status 200 and
    the JSON of [{domain, offers}], where [offers] is what the call
    returned: the stored offer sequence, or the empty one when the
    entry is absent. Every storage is as it was. *)
Theorem read_lists_offers (domain : string) :
  method request <> "OPTIONS" ->
  method request <> "POST" ->
  unauthorized env (authorization request) = false ->
  domain_param request = Some domain ->
  domain <> "" ->
  exists offers w',
    fetch P request env now w
    = (Returned {| status := 200;
                   body := BodyJson (JsonOffers domain offers);
                   headers := jsonHeaders |},
       w', [CallGetDomainOffers (instance_name domain) domain])
    /\ getDomainOffers domain (w (instance_name domain))
       = (Returned offers, w (instance_name domain))
    /\ (forall l,
          w (instance_name domain) !! storage_key domain = Some (SOffers l) ->
          offers = SOffers l)
    /\ (w (instance_name domain) !! storage_key domain = None ->
        offers = SOffers [])
    /\ (forall i, w' i = w i).
Proof.
  intros Hopt Hpost Hu Hd Hne. rewrite (fetch_authorized Hopt Hu), Hd.
  apply String.eqb_neq in Hpost. rewrite Hpost.
  destruct domain as [|c d]; [done|]. cbn zeta.
  unfold rpc. rewrite getDomainOffers_reads.
  eexists _, _. split; [reflexivity|]. split; [reflexivity|].
  split; [|split].
  - by intros l ->.
  - by intros ->.
  - intros i. cbn. destruct (String.eqb_spec i (instance_name (String c d)));
      by subst.
Qed.

End Router.

(** ** The responses on the worked inputs *)

(** A POST of an offer, then a GET of the same domain. *)
Example post_then_get :
  forall response w1 calls,
    fetch example_platform post_example example_env "2025-01-01T00:00:00.000Z" empty_world
    = (response, w1, calls) ->
    response
    = Returned
        {| status := 200;
           body := BodyJson (JsonSubmit
                     {| sr_domain := "example.com";
                        sr_offer := newOffer example_offer
                                      "2025-01-01T00:00:00.000Z";
                        sr_totalOffers := 1 |});
           headers := jsonHeaders |}
    /\ (fetch example_platform get_request example_env "2025-01-01T00:00:01.000Z" w1).1.1
       = Returned
           {| status := 200;
              body := BodyJson (JsonOffers "example.com"
                        (SOffers [newOffer example_offer
                                    "2025-01-01T00:00:00.000Z"]));
              headers := jsonHeaders |}.
Proof. intros response w1 calls [= <- <- <-]. split; reflexivity. Qed.

Lemma unauthorized_response_carries_cors :
  carries_cors unauthorized_response.
Proof. apply incl_appl, incl_refl. Qed.

(** C3 fails on the code: an authorized request without a [domain]
    parameter gets the status 400 and the body "Domain parameter is
    required" with no header at all, so without the CORS header set. *)
Theorem missing_domain_lacks_cors (P : Platform) (now : string) (w : World) :
  fetch P get_without_domain example_env now w
  = (Returned {| status := 400;
                 body := BodyText "Domain parameter is required";
                 headers := [] |}, w, [])
  /\ ~ carries_cors {| status := 400;
                       body := BodyText "Domain parameter is required";
                       headers := [] |}.
Proof.
  split; [reflexivity|].
  intros H. specialize (H _ (or_introl eq_refl)). inversion H.
Qed.

(** C1 as stated fails: the storage refuses a list over its value
    limit, so a call with an email of 131073 letters throws at [put];
    nothing is appended and no [totalOffers] is returned. *)
Lemma oversized_offer_is_refused :
  (∅ : gmap string stored) !! storage_key "example.com" = None
  /\ in_email oversized_offer = VStr (letters 131073)
  /\ submitDomainOffer example_platform "2025-01-01T00:00:00.000Z"
       "example.com" oversized_offer ∅
     = (Thrown (JsError "Values cannot be larger than 131072 bytes"), ∅)
  /\ submit_all example_platform "example.com"
       [("2025-01-01T00:00:00.000Z", oversized_offer)] ∅
     = (Thrown (JsError "Values cannot be larger than 131072 bytes"), ∅)
  /\ getDomainOffers "example.com" ∅ = (Returned (SOffers []), ∅).
Proof.
  split; [reflexivity|]. split; [reflexivity|].
  split; [vm_compute; reflexivity|].
  split; [vm_compute; reflexivity|]. reflexivity.
Qed.

(** C6 as stated fails: the body [null] is parseable JSON and has no
    email, yet the answer is "Invalid request body". *)
Lemma post_null_is_invalid_body :
  method post_null = "POST"
  /\ unauthorized example_env (authorization post_null) = false
  /\ domain_param post_null = Some "example.com"
  /\ json post_null = Some VNull
  /\ truthy (get_prop "email" VNull) = false
  /\ fetch example_platform post_null example_env "2025-01-01T00:00:00.000Z" empty_world
     = (Returned {| status := 400;
                    body := BodyText "Invalid request body";
                    headers := corsHeaders |}, empty_world, [])
  /\ BodyText "Invalid request body"
     <> BodyText "Email and amount are required".
Proof. repeat split; try reflexivity. discriminate. Qed.

(** C10 as stated fails: with the secret ["a b"], the header
    ["Bearer a b x"] is "Bearer <secret> <anything>" and is refused. *)
Lemma spaced_secret_is_refused :
  authorization get_trailing_spaced
  = Some ("Bearer " +:+ AUTH_TOKEN spaced_env +:+ " " +:+ "x")
  /\ method get_trailing_spaced <> "OPTIONS"
  /\ fetch example_platform get_trailing_spaced spaced_env "2025-01-01T00:00:00.000Z"
       empty_world
     = (Returned unauthorized_response, empty_world, []).
Proof. repeat split; try reflexivity. discriminate. Qed.

(** ** The theorems at the worked inputs *)

Lemma submit_sequence_appends_witness :
  (∅ : gmap string stored) !! storage_key "example.com" = None
  /\ 2 <= List.length example_calls
  /\ put_accepts example_platform (map stamp (take 1 example_calls)) = true
  /\ put_accepts example_platform (map stamp (take 2 example_calls)) = true
  /\ exists results st_k,
       submit_all example_platform "example.com" (take 2 example_calls) ∅
       = (Returned results, st_k)
       /\ List.length results = 2
       /\ getDomainOffers "example.com" st_k
          = (Returned (SOffers (map stamp (take 2 example_calls))), st_k).
Proof.
  split; [reflexivity|]. split; [apply le_n|].
  split; [reflexivity|]. split; [reflexivity|].
  destruct (submit_sequence_appends example_platform "example.com"
              example_calls ∅ 2)
    as (results & st_k & Hrun & Hlen & _ & Hget & _);
    [reflexivity | apply le_n | |].
  { intros [|[|[|j]]] Hj; try lia; reflexivity. }
  exists results, st_k. auto.
Defined.

Lemma track_sequence_counts_witness :
  (∅ : gmap string stored) !! storage_key "example.com" = None
  /\ exists results st_n,
       track_all example_platform "example.com" ["t1"; "t2"; "t3"] ∅ = (Returned results, st_n)
       /\ getDomainRequests "example.com" st_n
          = (Returned (SNumber (Num 3)), st_n).
Proof.
  split; [reflexivity|].
  destruct (track_sequence_counts example_platform "example.com" ["t1"; "t2"; "t3"] ∅)
    as (_ & results & st_n & Hrun & _ & _ & Hget); [reflexivity|].
  exists results, st_n. auto.
Defined.

Lemma shared_key_effects_witness :
  counted_once !! storage_key "example.com" = Some (SNumber (Num 1))
  /\ submitDomainOffer example_platform "t1" "example.com" example_offer counted_once
     = (Thrown (TypeError "offers.push is not a function"), counted_once).
Proof.
  split; [reflexivity|].
  destruct (shared_key_effects example_platform "example.com" "t1" example_offer counted_once)
    as (_ & _ & _ & Hsubmit).
  exact (Hsubmit (Num 1) eq_refl).
Defined.

Lemma options_preflight_witness :
  method options_request = "OPTIONS"
  /\ exists response,
       fetch example_platform options_request example_env "t" empty_world
       = (Returned response, empty_world, [])
       /\ status response = 200
       /\ body response = BodyNull
       /\ headers response
          = [ ("Access-Control-Allow-Origin", "https://agi-2025.com");
              ("Access-Control-Allow-Methods", "GET,HEAD,POST,OPTIONS");
              ("Access-Control-Allow-Headers", "Content-Type,Authorization");
              ("Access-Control-Max-Age", "86400") ]
       /\ carries_cors response.
Proof.
  split; [reflexivity|].
  apply (options_preflight example_platform options_request example_env "t" empty_world).
  reflexivity.
Defined.

Lemma unauthorized_is_401_witness :
  method get_wrong_token <> "OPTIONS"
  /\ bearer_token "Bearer RED_FOX_MOON" <> Some (AUTH_TOKEN example_env)
  /\ exists response,
       fetch example_platform get_wrong_token example_env "t" empty_world
       = (Returned response, empty_world, [])
       /\ status response = 401
       /\ body response = BodyText "Unauthorized".
Proof.
  split; [discriminate|]. split; [discriminate|].
  apply (unauthorized_is_401 example_platform get_wrong_token example_env "t" empty_world).
  - discriminate.
  - right. exists "Bearer RED_FOX_MOON". split; [reflexivity | discriminate].
Defined.

Lemma authorization_check_witness :
  method get_trailing <> "OPTIONS"
  /\ no_space (AUTH_TOKEN example_env) = true
  /\ (fetch example_platform get_trailing example_env "t" empty_world).1.1
     <> Returned unauthorized_response.
Proof.
  split; [discriminate|]. split; [reflexivity|].
  destruct (authorization_check example_platform get_trailing example_env "t" empty_world)
    as [_ Htrailing]; [discriminate|].
  apply (Htrailing eq_refl "and more"). reflexivity.
Defined.

Lemma post_rejections_witness :
  method post_empty_object = "POST"
  /\ unauthorized example_env (authorization post_empty_object) = false
  /\ domain_param post_empty_object = Some "example.com"
  /\ fetch example_platform post_empty_object example_env "t" empty_world
     = (Returned {| status := 400;
                    body := BodyText "Email and amount are required";
                    headers := corsHeaders |}, empty_world, []).
Proof.
  split; [reflexivity|]. split; [reflexivity|]. split; [reflexivity|].
  destruct (post_rejections example_platform post_empty_object example_env "t" empty_world
              "example.com") as (_ & Hrequired & _);
    [reflexivity | reflexivity | reflexivity | discriminate |].
  apply (Hrequired (VObj [])); [reflexivity | discriminate | discriminate |].
  left. reflexivity.
Defined.

Lemma read_lists_offers_witness :
  method get_request <> "OPTIONS"
  /\ method get_request <> "POST"
  /\ unauthorized example_env (authorization get_request) = false
  /\ exists w',
       fetch example_platform get_request example_env "t" empty_world
       = (Returned {| status := 200;
                      body := BodyJson (JsonOffers "example.com" (SOffers []));
                      headers := jsonHeaders |},
          w', [CallGetDomainOffers (instance_name "example.com") "example.com"]).
Proof.
  split; [discriminate|]. split; [discriminate|]. split; [reflexivity|].
  destruct (read_lists_offers example_platform get_request example_env "t" empty_world
              "example.com") as (offers & w' & Hfetch & _ & _ & Habsent & _);
    [discriminate | discriminate | reflexivity | reflexivity | discriminate |].
  exists w'. rewrite Hfetch, (Habsent eq_refl). reflexivity.
Defined.

(** ** Further properties of the Durable Object *)

Lemma submitDomainOffer_storage P now domain offer st :
  (submitDomainOffer P now domain offer st).2
  = match or_default (st !! storage_key domain) (SOffers []) with
    | SOffers l =>
        if put_accepts P (l ++ [newOffer offer now])
        then <[storage_key domain := SOffers (l ++ [newOffer offer now])]> st
        else st
    | SNumber _ => st
    end.
Proof.
  rewrite submitDomainOffer_runs. destruct (or_default _ _) as [n|l]; [done|].
  by destruct (put_accepts P _).
Qed.

Lemma submitDomainOffer_reads_key P now domain offer
    (st st2 : gmap string stored) :
  st2 !! storage_key domain = st !! storage_key domain ->
  (submitDomainOffer P now domain offer st2).1
  = (submitDomainOffer P now domain offer st).1.
Proof.
  intros H. rewrite !submitDomainOffer_runs, H.
  destruct (or_default _ _) as [n|l]; [done|].
  by destruct (put_accepts P _).
Qed.

Lemma trackDomainRequest_reads_key P now domain (st st2 : gmap string stored) :
  st2 !! storage_key domain = st !! storage_key domain ->
  (trackDomainRequest P now domain st2).1
  = (trackDomainRequest P now domain st).1.
Proof. intros H. rewrite !trackDomainRequest_runs. cbn. by rewrite H. Qed.

Lemma trackDomainRequest_frame P now domain (st : gmap string stored) k :
  k <> storage_key domain ->
  (trackDomainRequest P now domain st).2 !! k = st !! k.
Proof.
  intros Hk. rewrite trackDomainRequest_runs. cbn. by rewrite lookup_insert_ne.
Qed.

(** X1. Counting on a domain that has offers destroys them: the call
    returns and stores [NaN]; after it the count reads 0 and the offer
    list reads empty, the next [submitDomainOffer] starts a list of one
    (or throws, when the storage refuses that list, and stores
    nothing) and the next [trackDomainRequest] restarts the count
    at 1. *)
Theorem track_discards_offers (P : Platform) (domain now now' : string)
    (offer : OfferInput) (st : gmap string stored) (l : list DomainOffer) :
  st !! storage_key domain = Some (SOffers l) ->
  l <> [] ->
  exists r st1,
    trackDomainRequest P now domain st = (Returned r, st1)
    /\ tr_requests r = NaN
    /\ st1 !! storage_key domain = Some (SNumber NaN)
    /\ getDomainRequests domain st1 = (Returned (SNumber (Num 0)), st1)
    /\ getDomainOffers domain st1 = (Returned (SOffers []), st1)
    /\ (exists st2,
          submitDomainOffer P now' domain offer st1
          = (if put_accepts P [newOffer offer now']
             then (Returned {| sr_domain := domain;
                               sr_offer := newOffer offer now';
                               sr_totalOffers := 1 |}, st2)
             else (Thrown (JsError "Values cannot be larger than 131072 bytes"),
                   st1))
          /\ getDomainOffers domain st2
             = (Returned (SOffers [newOffer offer now']), st2))
    /\ (exists r2 st2,
          trackDomainRequest P now' domain st1 = (Returned r2, st2)
          /\ tr_requests r2 = Num 1
          /\ getDomainRequests domain st2 = (Returned (SNumber (Num 1)), st2)).
Proof.
  intros Hl Hne. rewrite trackDomainRequest_runs, Hl.
  destruct l as [|o l']; [done|].
  cbn [or_default stored_truthy to_number number_succ]. cbv zeta.
  eexists _, _. split; [reflexivity|]. split; [reflexivity|].
  assert (Hnan : <[storage_key domain := SNumber NaN]> st !! storage_key domain
                 = Some (SNumber NaN)) by apply lookup_insert_eq.
  split; [exact Hnan|].
  split; [by rewrite getDomainRequests_reads, Hnan|].
  split; [by rewrite getDomainOffers_reads, Hnan|].
  split.
  - eexists. split.
    + rewrite submitDomainOffer_runs, Hnan.
      cbn [or_default stored_truthy number_truthy app]. reflexivity.
    + by rewrite getDomainOffers_reads, lookup_insert_eq.
  - rewrite trackDomainRequest_runs, Hnan.
    cbn [or_default stored_truthy number_truthy to_number number_succ].
    cbv zeta.
    eexists _, _. split; [reflexivity|]. split; [reflexivity|].
    by rewrite getDomainRequests_reads, lookup_insert_eq.
Qed.

(** X2. On one object, calls for two different domains do not see each
    other: [submitDomainOffer] for one and [submitDomainOffer] or
    [trackDomainRequest] for the other return the same results and
    leave the same storage in either order. *)
Theorem calls_on_two_domains_commute (P : Platform) (d1 d2 now1 now2 : string)
    (o1 o2 : OfferInput) (st : gmap string stored) :
  d1 <> d2 ->
  ((submitDomainOffer P now2 d2 o2 (submitDomainOffer P now1 d1 o1 st).2).1
   = (submitDomainOffer P now2 d2 o2 st).1
   /\ (submitDomainOffer P now1 d1 o1 (submitDomainOffer P now2 d2 o2 st).2).1
      = (submitDomainOffer P now1 d1 o1 st).1
   /\ (submitDomainOffer P now2 d2 o2 (submitDomainOffer P now1 d1 o1 st).2).2
      = (submitDomainOffer P now1 d1 o1 (submitDomainOffer P now2 d2 o2 st).2).2)
  /\ ((trackDomainRequest P now2 d2 (submitDomainOffer P now1 d1 o1 st).2).1
      = (trackDomainRequest P now2 d2 st).1
      /\ (submitDomainOffer P now1 d1 o1 (trackDomainRequest P now2 d2 st).2).1
         = (submitDomainOffer P now1 d1 o1 st).1
      /\ (trackDomainRequest P now2 d2 (submitDomainOffer P now1 d1 o1 st).2).2
         = (submitDomainOffer P now1 d1 o1 (trackDomainRequest P now2 d2 st).2).2).
Proof.
  intros Hd.
  assert (Hk : storage_key d1 <> storage_key d2).
  { intros E. by apply storage_key_inj in E. }
  assert (Hk' : storage_key d2 <> storage_key d1) by congruence.
  split; (split; [|split]).
  - apply submitDomainOffer_reads_key. by apply submitDomainOffer_frame.
  - apply submitDomainOffer_reads_key. by apply submitDomainOffer_frame.
  - rewrite (submitDomainOffer_storage P now2 d2 o2
               (submitDomainOffer P now1 d1 o1 st).2).
    rewrite (submitDomainOffer_storage P now1 d1 o1
               (submitDomainOffer P now2 d2 o2 st).2).
    rewrite !submitDomainOffer_frame by done.
    rewrite !submitDomainOffer_storage.
    destruct (or_default (st !! storage_key d1) _) as [n1|l1];
      destruct (or_default (st !! storage_key d2) _) as [n2|l2]; try done;
      repeat (destruct (put_accepts P _)); try done.
    by apply insert_insert_ne.
  - apply trackDomainRequest_reads_key. by apply submitDomainOffer_frame.
  - apply submitDomainOffer_reads_key. by apply trackDomainRequest_frame.
  - rewrite (submitDomainOffer_storage P now1 d1 o1
               (trackDomainRequest P now2 d2 st).2).
    rewrite trackDomainRequest_frame by done.
    rewrite !trackDomainRequest_runs. cbv zeta. cbn [snd].
    rewrite submitDomainOffer_frame by done.
    rewrite submitDomainOffer_storage.
    destruct (or_default (st !! storage_key d1) _) as [n1|l1]; try done.
    destruct (put_accepts P _); try done.
    by apply insert_insert_ne.
Qed.

(** ** Further properties of the router: one request *)

Lemma instance_name_inj d1 d2 : instance_name d1 = instance_name d2 -> d1 = d2.
Proof. unfold instance_name. intros H. simpl in H. by injection H. Qed.

Lemma rpc_world {A} accepted instance (m : DO.t A) (w : World) i :
  (rpc accepted instance m w).2 i
  = if accepted && String.eqb i instance then (m (w instance)).2 else w i.
Proof.
  unfold rpc. destruct accepted; [|done]. by destruct (m (w instance)).
Qed.

Lemma rpc_read_world instance domain (w : World) i :
  (rpc true instance (getDomainOffers domain) w).2 i = w i.
Proof.
  rewrite rpc_world, getDomainOffers_reads. cbn.
  destruct (String.eqb_spec i instance); by subst.
Qed.

Lemma truthy_prop_not_null k parsed :
  truthy (get_prop k parsed) = true ->
  destructure parsed
  = Returned (get_prop "email" parsed, get_prop "amount" parsed,
              get_prop "description" parsed).
Proof. by destruct parsed. Qed.

Section OneRequest.

Variable P : Platform.
Variables (request : Request) (env : Env) (now : string) (w : World).

(** A POST that passes the checks is the call of [submitDomainOffer]
    and the translation of its outcome. *)
Lemma fetch_post_accepted domain parsed :
  method request = "POST" ->
  unauthorized env (authorization request) = false ->
  domain_param request = Some domain ->
  domain <> "" ->
  json request = Some parsed ->
  truthy (get_prop "email" parsed) = true ->
  truthy (get_prop "amount" parsed) = true ->
  fetch P request env now w
  = (match (rpc (call_accepts P (offer_of parsed)) (instance_name domain)
              (submitDomainOffer P now domain (offer_of parsed)) w).1 with
     | Returned result =>
         Returned (new_Response (BodyJson (JsonSubmit result)) None jsonHeaders)
     | Thrown _ =>
         Returned (new_Response (BodyText "Invalid request body")
                                (Some 400) corsHeaders)
     end,
     (rpc (call_accepts P (offer_of parsed)) (instance_name domain)
          (submitDomainOffer P now domain (offer_of parsed)) w).2,
     [CallSubmitDomainOffer (instance_name domain) domain (offer_of parsed)]).
Proof.
  intros Hm Hu Hd Hne Hj He Ha.
  rewrite (fetch_post P request env now w domain Hm Hu Hd Hne).
  unfold post_try. rewrite Hj, (truthy_prop_not_null "email" parsed He).
  rewrite He, Ha. cbn [negb orb]. fold (offer_of parsed).
  by destruct (rpc _ _ _ _) as [[result|e] w'].
Qed.

(** The same POST on a domain whose entry reads as the offers [l]: it
    is accepted when the stub takes the offer and the storage takes the
    longer list, and is answered "Invalid request body" otherwise. *)
Lemma fetch_post_on_offers domain parsed l :
  method request = "POST" ->
  unauthorized env (authorization request) = false ->
  domain_param request = Some domain ->
  domain <> "" ->
  json request = Some parsed ->
  truthy (get_prop "email" parsed) = true ->
  truthy (get_prop "amount" parsed) = true ->
  holds_offers domain (w (instance_name domain)) l ->
  exists w',
    fetch P request env now w
    = (if call_accepts P (offer_of parsed)
          && put_accepts P (l ++ [newOffer (offer_of parsed) now])
       then Returned {| status := 200;
                        body := BodyJson (JsonSubmit
                                  {| sr_domain := domain;
                                     sr_offer := newOffer (offer_of parsed) now;
                                     sr_totalOffers := S (List.length l) |});
                        headers := jsonHeaders |}
       else Returned {| status := 400;
                        body := BodyText "Invalid request body";
                        headers := corsHeaders |},
       w',
       [CallSubmitDomainOffer (instance_name domain) domain (offer_of parsed)])
    /\ (forall i, i <> instance_name domain -> w' i = w i)
    /\ w' (instance_name domain)
       = if call_accepts P (offer_of parsed)
            && put_accepts P (l ++ [newOffer (offer_of parsed) now])
         then <[storage_key domain :=
                  SOffers (l ++ [newOffer (offer_of parsed) now])]>
                (w (instance_name domain))
         else w (instance_name domain).
Proof.
  intros Hm Hu Hd Hne Hj He Ha Hl.
  rewrite (fetch_post_accepted domain parsed Hm Hu Hd Hne Hj He Ha).
  eexists. split; [|split].
  - f_equal. f_equal. unfold rpc.
    destruct (call_accepts P (offer_of parsed)); [|done].
    rewrite submitDomainOffer_runs. unfold holds_offers in Hl. rewrite Hl.
    by destruct (put_accepts P _).
  - intros i Hi. rewrite rpc_world. apply String.eqb_neq in Hi.
    by rewrite Hi, andb_false_r.
  - rewrite rpc_world, String.eqb_refl, andb_true_r.
    destruct (call_accepts P (offer_of parsed)); [|done].
    rewrite submitDomainOffer_storage. unfold holds_offers in Hl. rewrite Hl.
    by destruct (put_accepts P _).
Qed.

(** The world a request leaves: the one it found, or the one after its
    single ledger call. *)
Lemma fetch_world :
  (fetch P request env now w).1.2 = w
  \/ (exists domain,
        (fetch P request env now w).1.2
        = (rpc true (instance_name domain) (getDomainOffers domain) w).2)
  \/ (exists domain parsed,
        method request = "POST"
        /\ domain_param request = Some domain
        /\ domain <> ""
        /\ truthy (get_prop "email" parsed) = true
        /\ truthy (get_prop "amount" parsed) = true
        /\ (fetch P request env now w).1.2
           = (rpc (call_accepts P (offer_of parsed)) (instance_name domain)
                  (submitDomainOffer P now domain (offer_of parsed)) w).2).
Proof.
  destruct (String.eqb_spec (method request) "OPTIONS") as [Hopt|Hopt].
  { left. by rewrite fetch_options. }
  destruct (unauthorized env (authorization request)) eqn:Hu.
  { left. by rewrite fetch_unauthorized. }
  destruct (domain_param request) as [[|c d]|] eqn:Hd;
    [left; by rewrite (fetch_authorized P request env now w Hopt Hu), Hd|
    |left; by rewrite (fetch_authorized P request env now w Hopt Hu), Hd].
  destruct (String.eqb_spec (method request) "POST") as [Hm|Hm].
  - assert (Hrejected :
      post_try P request (String c d) now w
      = (Thrown (SyntaxError "Unexpected token"), w, [])
      \/ (exists e, post_try P request (String c d) now w = (Thrown e, w, []))
      \/ (exists r, post_try P request (String c d) now w = (Returned r, w, []))
      -> (fetch P request env now w).1.2 = w).
    { rewrite (fetch_post P request env now w (String c d) Hm Hu Hd) by done.
      by intros [-> | [[e ->] | [r ->]]]. }
    destruct (json request) as [parsed|] eqn:Hj.
    + destruct (truthy (get_prop "email" parsed)) eqn:He.
      * destruct (truthy (get_prop "amount" parsed)) eqn:Ha.
        -- right. right. exists (String c d), parsed.
           repeat (split; [done|]).
           by rewrite (fetch_post_accepted (String c d) parsed).
        -- left. apply Hrejected. right. right. unfold post_try.
           rewrite Hj, (truthy_prop_not_null "email" parsed He), He, Ha.
           by eexists.
      * left. apply Hrejected. right. unfold post_try. rewrite Hj.
        destruct parsed; cbn [destructure]; try (left; by eexists);
          right; rewrite He; by eexists.
    + left. apply Hrejected. left. unfold post_try. by rewrite Hj.
  - right. left. exists (String c d).
    rewrite (fetch_authorized P request env now w Hopt Hu), Hd.
    apply String.eqb_neq in Hm. rewrite Hm. cbn zeta.
    by destruct (rpc _ _ _ _) as [[o|e] w'].
Qed.

Lemma post_try_calls domain o w' calls :
  post_try P request domain now w = (o, w', calls) -> List.length calls <= 1.
Proof.
  unfold post_try. repeat case_match; intros [= _ _ <-]; cbn; lia.
Qed.

(** X3. An authorized POST for a non-empty domain whose body has a
    truthy email and a truthy amount, on a domain whose entry is absent
    or holds the offers [l], makes one [submitDomainOffer] call. When
    the stub takes the offer and the storage takes the longer list, the
    answer is 200 with the JSON of the domain, the new offer (the body's
    email, amount and description and the clock reading) and
    [totalOffers = |l| + 1], and the entry then holds [l] followed by
    the new offer. When either refuses, the answer is 400 "Invalid
    request body" and the entry is as it was. Every other object is as
    it was. *)
Theorem post_appends (domain : string) (parsed : value)
    (l : list DomainOffer) :
  method request = "POST" ->
  unauthorized env (authorization request) = false ->
  domain_param request = Some domain ->
  domain <> "" ->
  json request = Some parsed ->
  truthy (get_prop "email" parsed) = true ->
  truthy (get_prop "amount" parsed) = true ->
  holds_offers domain (w (instance_name domain)) l ->
  let offer := {| email := get_prop "email" parsed;
                  amount := get_prop "amount" parsed;
                  description := get_prop "description" parsed;
                  timestamp := now |} in
  let accepted := call_accepts P {| in_email := get_prop "email" parsed;
                                    in_amount := get_prop "amount" parsed;
                                    in_description :=
                                      get_prop "description" parsed |}
                  && put_accepts P (l ++ [offer]) in
  exists w',
    fetch P request env now w
    = (if accepted
       then Returned {| status := 200;
                        body := BodyJson (JsonSubmit
                                  {| sr_domain := domain;
                                     sr_offer := offer;
                                     sr_totalOffers := S (List.length l) |});
                        headers := jsonHeaders |}
       else Returned {| status := 400;
                        body := BodyText "Invalid request body";
                        headers := corsHeaders |},
       w',
       [CallSubmitDomainOffer (instance_name domain) domain
          {| in_email := get_prop "email" parsed;
             in_amount := get_prop "amount" parsed;
             in_description := get_prop "description" parsed |}])
    /\ w' (instance_name domain)
       = (if accepted
          then <[storage_key domain := SOffers (l ++ [offer])]>
                 (w (instance_name domain))
          else w (instance_name domain))
    /\ forall i, i <> instance_name domain -> w' i = w i.
Proof.
  intros Hm Hu Hd Hne Hj He Ha Hl offer accepted.
  destruct (fetch_post_on_offers domain parsed l Hm Hu Hd Hne Hj He Ha Hl)
    as (w' & Hfetch & Hframe & Hentry).
  exists w'. split; [exact Hfetch|]. split; [exact Hentry | exact Hframe].
Qed.

(** X4. An authorized request other than OPTIONS whose [domain]
    parameter is missing or empty gets 400 "Domain parameter is
    required", whatever its method and body; no ledger method is called
    and every storage is as it was. *)
Theorem missing_domain_is_400 :
  method request <> "OPTIONS" ->
  unauthorized env (authorization request) = false ->
  domain_param request = None \/ domain_param request = Some "" ->
  fetch P request env now w
  = (Returned {| status := 400;
                 body := BodyText "Domain parameter is required";
                 headers := [] |}, w, []).
Proof.
  intros Hm Hu Hd. rewrite (fetch_authorized P request env now w Hm Hu).
  by destruct Hd as [-> | ->].
Qed.

(** X5. When the entry of a domain holds a non-zero number, a POST with
    a valid body is answered 400 "Invalid request body": the ledger call
    is made and throws, and every storage is as it was. A read of the
    same domain is answered 200 with the number in place of the offer
    list. *)
Theorem number_entry_breaks_offers (domain : string) (parsed : value)
    (n : number) :
  method request <> "OPTIONS" ->
  unauthorized env (authorization request) = false ->
  domain_param request = Some domain ->
  domain <> "" ->
  w (instance_name domain) !! storage_key domain = Some (SNumber n) ->
  number_truthy n = true ->
  (method request = "POST" ->
   json request = Some parsed ->
   truthy (get_prop "email" parsed) = true ->
   truthy (get_prop "amount" parsed) = true ->
   exists w',
     fetch P request env now w
     = (Returned {| status := 400;
                    body := BodyText "Invalid request body";
                    headers := corsHeaders |},
        w',
        [CallSubmitDomainOffer (instance_name domain) domain
           (offer_of parsed)])
     /\ forall i, w' i = w i)
  /\ (method request <> "POST" ->
      exists w',
        fetch P request env now w
        = (Returned {| status := 200;
                       body := BodyJson (JsonOffers domain (SNumber n));
                       headers := jsonHeaders |},
           w', [CallGetDomainOffers (instance_name domain) domain])
        /\ forall i, w' i = w i).
Proof.
  intros Hopt Hu Hd Hne Hn Ht. split.
  - intros Hm Hj He Ha.
    rewrite (fetch_post_accepted domain parsed Hm Hu Hd Hne Hj He Ha).
    eexists. split.
    + f_equal. f_equal. unfold rpc.
      destruct (call_accepts P (offer_of parsed)); [|done].
      rewrite (submitDomainOffer_on_number P domain now (offer_of parsed) _ n Hn).
      by rewrite Ht.
    + intros i. rewrite rpc_world.
      rewrite (submitDomainOffer_on_number P domain now (offer_of parsed) _ n Hn).
      rewrite Ht. cbn [snd].
      destruct (call_accepts P (offer_of parsed)); [|done]. cbn [andb].
      destruct (String.eqb_spec i (instance_name domain)); by subst.
  - intros Hm. rewrite (fetch_authorized P request env now w Hopt Hu), Hd.
    apply String.eqb_neq in Hm. rewrite Hm.
    destruct domain as [|c d]; [done|]. cbn zeta.
    unfold rpc. rewrite getDomainOffers_reads, Hn. cbn [or_default stored_truthy].
    rewrite Ht. eexists. split; [reflexivity|].
    intros i. cbn. destruct (String.eqb_spec i (instance_name (String c d)));
      by subst.
Qed.

(** X6. [fetch] answers every request: it never rejects, the status is
    200, 400 or 401, and it makes at most one ledger call. *)
Theorem fetch_always_responds :
  exists r,
    (fetch P request env now w).1.1 = Returned r
    /\ (status r = 200 \/ status r = 400 \/ status r = 401)
    /\ List.length (fetch P request env now w).2 <= 1.
Proof.
  destruct (String.eqb_spec (method request) "OPTIONS") as [Hopt|Hopt].
  { rewrite fetch_options by done. eexists. cbn. split; [done|]. auto. }
  destruct (unauthorized env (authorization request)) eqn:Hu.
  { rewrite fetch_unauthorized by done. eexists. cbn. split; [done|]. auto. }
  rewrite (fetch_authorized P request env now w Hopt Hu).
  destruct (domain_param request) as [[|c d]|] eqn:Hd;
    try (eexists; cbn; split; [done|]; auto).
  destruct (String.eqb (method request) "POST").
  - destruct (post_try P request (String c d) now w) as [[[r|e] w'] calls] eqn:E;
      eexists; cbn; (split; [done|]); split.
    + apply post_try_status in E as [-> | ->]; auto.
    + by apply post_try_calls in E.
    + auto.
    + by apply post_try_calls in E.
  - cbn zeta. unfold rpc. rewrite getDomainOffers_reads.
    eexists. cbn. split; [done|]. auto.
Qed.

(** X7. A request changes at most one entry of one storage: if an entry
    differs after the request, the request is a POST and the entry is
    ["domain:<d>"] in the object ["domain-offers:<d>"] of its own
    [domain] parameter [d]. *)
Theorem fetch_changes_only_its_entry (i k : string) :
  (fetch P request env now w).1.2 i !! k <> w i !! k ->
  method request = "POST"
  /\ exists d, domain_param request = Some d
       /\ i = instance_name d /\ k = storage_key d.
Proof.
  intros Hchanged.
  destruct fetch_world as [E | [[d E] | (d & parsed & Hm & Hd & _ & _ & _ & E)]];
    rewrite E in Hchanged.
  - done.
  - by rewrite rpc_read_world in Hchanged.
  - split; [done|]. exists d. split; [done|].
    rewrite rpc_world in Hchanged.
    destruct (call_accepts P (offer_of parsed)); [|done]. cbn [andb] in Hchanged.
    destruct (String.eqb_spec i (instance_name d)) as [->|]; [|done].
    split; [done|].
    destruct (decide (k = storage_key d)) as [|Hk]; [done|].
    by rewrite submitDomainOffer_frame in Hchanged.
Qed.

(** X8. No request removes or reorders stored offers: an entry that
    held the offers [l] holds [l] followed by at most one more offer
    after any request. *)
Theorem fetch_only_appends (i k : string) (l : list DomainOffer) :
  w i !! k = Some (SOffers l) ->
  exists extra,
    (fetch P request env now w).1.2 i !! k = Some (SOffers (l ++ extra))
    /\ List.length extra <= 1.
Proof.
  intros Hl.
  assert (Hsame : forall st : gmap string stored,
            st !! k = w i !! k ->
            exists extra, st !! k = Some (SOffers (l ++ extra))
                          /\ List.length extra <= 1).
  { intros st ->. exists []. rewrite app_nil_r. split; [done | cbn; lia]. }
  destruct fetch_world as [E | [[d E] | (d & parsed & _ & _ & _ & _ & _ & E)]];
    rewrite E.
  - by apply Hsame.
  - apply Hsame. by rewrite rpc_read_world.
  - rewrite rpc_world.
    destruct (call_accepts P (offer_of parsed)); [|by apply Hsame].
    cbn [andb].
    destruct (String.eqb_spec i (instance_name d)) as [->|];
      [|by apply Hsame].
    destruct (decide (k = storage_key d)) as [->|Hk].
    + rewrite submitDomainOffer_storage, Hl. cbn [or_default stored_truthy].
      destruct (put_accepts P _); [|by apply Hsame].
      exists [newOffer (offer_of parsed) now].
      rewrite lookup_insert_eq. split; [done | cbn; lia].
    + apply Hsame. by rewrite submitDomainOffer_frame.
Qed.

End OneRequest.

(** ** Further properties of the router: runs of requests *)

Lemma valid_post_inv env domain request :
  valid_post env domain request = true ->
  method request = "POST"
  /\ unauthorized env (authorization request) = false
  /\ domain_param request = Some domain
  /\ exists parsed,
       json request = Some parsed
       /\ truthy (get_prop "email" parsed) = true
       /\ truthy (get_prop "amount" parsed) = true.
Proof.
  unfold valid_post. rewrite !andb_true_iff, negb_true_iff, String.eqb_eq.
  intros [[[[Hm Hu] Hd] He] Ha]. split; [done|]. split; [done|]. split.
  - destruct (domain_param request) as [d|]; [|done].
    by apply String.eqb_eq in Hd as ->.
  - destruct (json request) as [parsed|]; [|done]. by exists parsed.
Qed.

Lemma valid_read_inv env domain request :
  valid_read env domain request = true ->
  method request <> "OPTIONS"
  /\ method request <> "POST"
  /\ unauthorized env (authorization request) = false
  /\ domain_param request = Some domain.
Proof.
  unfold valid_read. rewrite !andb_true_iff, !negb_true_iff, !String.eqb_neq.
  intros [[[Ho Hp] Hu] Hd]. repeat (split; [done|]).
  destruct (domain_param request) as [d|]; [|done].
  by apply String.eqb_eq in Hd as ->.
Qed.

Lemma serve_cons P env request now rest w :
  serve P env ((request, now) :: rest) w
  = ((fetch P request env now w).1.1
       :: (serve P env rest (fetch P request env now w).1.2).1.1,
     (serve P env rest (fetch P request env now w).1.2).1.2,
     (fetch P request env now w).2
       ++ (serve P env rest (fetch P request env now w).1.2).2).
Proof.
  cbn [serve]. destruct (fetch P request env now w) as [[r w'] calls].
  cbn [fst snd]. by destruct (serve P env rest w') as [[rs w''] calls'].
Qed.

Lemma router_storage_empty : router_storage empty_world.
Proof. intros i k v H. unfold empty_world in H. by rewrite lookup_empty in H. Qed.

Lemma router_storage_entry w d :
  router_storage w ->
  exists l, holds_offers d (w (instance_name d)) l
            /\ Forall (fun o => valid_offer o = true) l.
Proof.
  intros Hw. unfold holds_offers.
  destruct (w (instance_name d) !! storage_key d) as [v|] eqn:E.
  - apply Hw in E as (d' & l & _ & _ & _ & -> & _ & Hvalid). by exists l.
  - by exists [].
Qed.

Lemma fetch_keeps_router_storage P request env now w :
  router_storage w -> router_storage (fetch P request env now w).1.2.
Proof.
  intros Hw i k v.
  destruct (fetch_world P request env now w)
    as [E | [[d E] | (d & parsed & _ & _ & Hne & He & Ha & E)]]; rewrite E.
  - apply Hw.
  - rewrite rpc_read_world. apply Hw.
  - rewrite rpc_world.
    destruct (call_accepts P (offer_of parsed)); [|apply Hw]. cbn [andb].
    destruct (String.eqb_spec i (instance_name d)) as [->|]; [|apply Hw].
    destruct (router_storage_entry w d Hw) as (l & Hl & Hvalid).
    rewrite submitDomainOffer_storage. unfold holds_offers in Hl. rewrite Hl.
    destruct (put_accepts P _); [|apply Hw].
    destruct (decide (k = storage_key d)) as [->|Hk].
    + rewrite lookup_insert_eq. intros [= <-].
      exists d, (l ++ [newOffer (offer_of parsed) now]).
      repeat (split; [done|]). split; [by destruct l|].
      apply Forall_app. split; [done|]. constructor; [|done].
      unfold valid_offer. cbn. by rewrite He, Ha.
    + rewrite lookup_insert_ne by done. apply Hw.
Qed.

Lemma serve_keeps_router_storage P env reqs : forall w,
  router_storage w -> router_storage (serve P env reqs w).1.2.
Proof.
  induction reqs as [|[request now] rest IH]; intros w Hw; [done|].
  rewrite serve_cons. cbn [fst snd].
  by apply IH, fetch_keeps_router_storage.
Qed.

(** X9. Whatever requests were served since the storages were empty,
    every stored entry is ["domain:<d>"] in the object
    ["domain-offers:<d>"] for a non-empty [d], and holds a non-empty
    list of offers whose email and amount are truthy: the router stores
    no number and no offer that failed the presence checks. *)
Theorem served_storage_is_offers (P : Platform) (env : Env)
    (reqs : list (Request * string)) (i k : string) (v : stored) :
  (serve P env reqs empty_world).1.2 i !! k = Some v ->
  exists d l,
    i = instance_name d /\ k = storage_key d /\ d <> ""
    /\ v = SOffers l /\ l <> []
    /\ Forall (fun o => truthy (email o) = true /\ truthy (amount o) = true) l.
Proof.
  intros H.
  apply (serve_keeps_router_storage P env reqs empty_world router_storage_empty)
    in H as (d & l & Hi & Hk & Hd & Hv & Hl & Hvalid).
  exists d, l. repeat (split; [done|]).
  eapply Forall_impl; [exact Hvalid|].
  intros o Ho. unfold valid_offer in Ho. by apply andb_true_iff in Ho.
Qed.

(** X10. Whatever requests were served since the storages were empty,
    an authorized POST for a non-empty domain with a truthy email and a
    truthy amount fails only when the platform refuses it. The entry of
    its domain reads as a list of offers [l], never as a number; the
    answer is 200 with the JSON of the domain, the posted offer and
    [totalOffers = |l| + 1] when the stub takes the offer and the
    storage takes the longer list, and 400 "Invalid request body"
    otherwise. *)
Theorem served_valid_post_outcome (P : Platform) (env : Env)
    (reqs : list (Request * string)) (domain : string)
    (request : Request) (now : string) :
  domain <> "" ->
  valid_post env domain request = true ->
  exists l,
    holds_offers domain
      ((serve P env reqs empty_world).1.2 (instance_name domain)) l
    /\ (fetch P request env now (serve P env reqs empty_world).1.2).1.1
       = if call_accepts P (offer_of (default VUndefined (json request)))
            && put_accepts P (l ++ [posted (request, now)])
         then Returned {| status := 200;
                          body := BodyJson (JsonSubmit
                                    {| sr_domain := domain;
                                       sr_offer := posted (request, now);
                                       sr_totalOffers := S (List.length l) |});
                          headers := jsonHeaders |}
         else Returned {| status := 400;
                          body := BodyText "Invalid request body";
                          headers := corsHeaders |}.
Proof.
  intros Hne Hvalid.
  apply valid_post_inv in Hvalid as (Hm & Hu & Hd & parsed & Hj & He & Ha).
  destruct (router_storage_entry _ domain
              (serve_keeps_router_storage P env reqs empty_world
                 router_storage_empty)) as (l & Hl & _).
  exists l. split; [exact Hl|].
  destruct (fetch_post_on_offers P request env now _ domain parsed l
              Hm Hu Hd Hne Hj He Ha Hl) as (w' & -> & _).
  unfold posted. cbn [fst snd]. rewrite Hj. reflexivity.
Qed.

Lemma serve_posts P env domain reqs : forall w l,
  domain <> "" ->
  forallb (fun rn : Request * string => valid_post env domain rn.1) reqs
  = true ->
  forallb (fun rn : Request * string =>
             call_accepts P (offer_of (default VUndefined (json rn.1)))) reqs
  = true ->
  (forall j, 1 <= j <= List.length reqs ->
     put_accepts P (l ++ map posted (take j reqs)) = true) ->
  holds_offers domain (w (instance_name domain)) l ->
  exists w' calls,
    serve P env reqs w
    = (post_responses domain (List.length l) reqs, w', calls)
    /\ List.length calls = List.length reqs
    /\ holds_offers domain (w' (instance_name domain)) (l ++ map posted reqs)
    /\ forall i, i <> instance_name domain -> w' i = w i.
Proof.
  induction reqs as [|[request now] rest IH]; intros w l Hne Hall Hcalls Hputs Hl.
  - exists w, []. rewrite app_nil_r. by cbn.
  - cbn [forallb] in Hall, Hcalls.
    apply andb_true_iff in Hall as [Hvalid Hall].
    apply andb_true_iff in Hcalls as [Hcall Hcalls].
    cbn [fst] in Hvalid, Hcall.
    apply valid_post_inv in Hvalid as (Hm & Hu & Hd & parsed & Hj & He & Ha).
    assert (Hposted : posted (request, now) = newOffer (offer_of parsed) now).
    { unfold posted. cbn [fst snd]. by rewrite Hj. }
    assert (Hput : put_accepts P (l ++ [newOffer (offer_of parsed) now]) = true).
    { rewrite <- Hposted. apply (Hputs 1). cbn. lia. }
    rewrite Hj in Hcall.
    change (call_accepts P (offer_of parsed) = true) in Hcall.
    destruct (fetch_post_on_offers P request env now w domain parsed l
                Hm Hu Hd Hne Hj He Ha Hl) as (w1 & Hfetch & Hframe1 & Hentry).
    rewrite Hcall, Hput in Hfetch, Hentry. cbn [andb] in Hfetch, Hentry.
    assert (Hw1 : holds_offers domain (w1 (instance_name domain))
                    (l ++ [posted (request, now)])).
    { rewrite Hentry, Hposted. apply holds_offers_insert. }
    destruct (IH w1 (l ++ [posted (request, now)]) Hne Hall Hcalls)
      as (w' & calls & Hserve & Hlen & Hheld & Hframe).
    { intros j Hj'. rewrite <- app_assoc. apply (Hputs (S j)). cbn. lia. }
    { exact Hw1. }
    exists w', (CallSubmitDomainOffer (instance_name domain) domain
                  (offer_of parsed) :: calls).
    split; [|split; [|split]].
    + rewrite serve_cons, Hfetch. cbn [fst snd]. rewrite Hserve.
      cbn [fst snd post_responses app]. rewrite Hposted.
      rewrite length_app, Nat.add_1_r. reflexivity.
    + cbn [List.length]. by rewrite Hlen.
    + cbn [map]. by rewrite <- app_assoc in Hheld.
    + intros i Hi. rewrite (Hframe i Hi). by apply Hframe1.
Qed.

(** X11. A run of valid POSTs for one non-empty domain, on a domain
    whose entry is absent or holds the offers [l], the stub taking each
    offer and the storage taking the list each request puts: the [j]-th
    answer (from 1) is 200 with the email, amount and description of
    the [j]-th body, the clock of its turn and [totalOffers = |l| + j];
    one ledger call is made per request; the other objects are as they
    were; and an authorized read of the domain afterwards is answered
    200 with [l] followed by the posted offers in the order of the
    requests. *)
Theorem posts_then_read (P : Platform) (env : Env) (domain : string)
    (reqs : list (Request * string)) (w : World) (l : list DomainOffer) :
  domain <> "" ->
  forallb (fun rn : Request * string => valid_post env domain rn.1) reqs
  = true ->
  forallb (fun rn : Request * string =>
             call_accepts P (offer_of (default VUndefined (json rn.1)))) reqs
  = true ->
  (forall j, 1 <= j <= List.length reqs ->
     put_accepts P (l ++ map posted (take j reqs)) = true) ->
  holds_offers domain (w (instance_name domain)) l ->
  exists w' calls,
    serve P env reqs w
    = (post_responses domain (List.length l) reqs, w', calls)
    /\ List.length calls = List.length reqs
    /\ (forall i, i <> instance_name domain -> w' i = w i)
    /\ forall request now,
         valid_read env domain request = true ->
         (fetch P request env now w').1.1
         = Returned {| status := 200;
                       body := BodyJson (JsonOffers domain
                                 (SOffers (l ++ map posted reqs)));
                       headers := jsonHeaders |}.
Proof.
  intros Hne Hall Hcalls Hputs Hl.
  destruct (serve_posts P env domain reqs w l Hne Hall Hcalls Hputs Hl)
    as (w' & calls & Hserve & Hlen & Hheld & Hframe).
  exists w', calls. repeat (split; [done|]).
  intros request now Hread.
  apply valid_read_inv in Hread as (Hopt & Hpost & Hu & Hd).
  rewrite (fetch_authorized P request env now w' Hopt Hu), Hd.
  apply String.eqb_neq in Hpost. rewrite Hpost.
  destruct domain as [|c d]; [done|]. cbn zeta.
  unfold rpc. rewrite getDomainOffers_reads.
  unfold holds_offers in Hheld. by rewrite Hheld.
Qed.

(** X12. The router reads three properties of a POST body and nothing
    else: two requests that differ only in other properties of their
    JSON objects (a client-supplied [timestamp], say) get the same
    answer, make the same call and leave the same storages. *)
Theorem body_extras_are_ignored (P : Platform) (request1 request2 : Request)
    (env : Env) (now : string) (w : World)
    (props1 props2 : list (string * value)) :
  method request1 = method request2 ->
  authorization request1 = authorization request2 ->
  domain_param request1 = domain_param request2 ->
  json request1 = Some (VObj props1) ->
  json request2 = Some (VObj props2) ->
  assoc "email" props1 = assoc "email" props2 ->
  assoc "amount" props1 = assoc "amount" props2 ->
  assoc "description" props1 = assoc "description" props2 ->
  fetch P request1 env now w = fetch P request2 env now w.
Proof.
  intros Hm Ha Hd Hj1 Hj2 He Hamt Hdesc.
  unfold fetch, post_try. rewrite Hm, Ha, Hd, Hj1, Hj2.
  cbn [destructure get_prop]. by rewrite He, Hamt, Hdesc.
Qed.

Lemma fetch_other_instance P request env now w i :
  (forall d, domain_param request = Some d -> i <> instance_name d) ->
  (fetch P request env now w).1.2 i = w i.
Proof.
  intros Hi.
  destruct (fetch_world P request env now w)
    as [E | [[d E] | (d & parsed & _ & Hd & _ & _ & _ & E)]]; rewrite E.
  - done.
  - apply rpc_read_world.
  - rewrite rpc_world. specialize (Hi d Hd). apply String.eqb_neq in Hi.
    by rewrite Hi, andb_false_r.
Qed.

Lemma fetch_not_post P request env now w i :
  method request <> "POST" -> (fetch P request env now w).1.2 i = w i.
Proof.
  intros Hm.
  destruct (fetch_world P request env now w)
    as [E | [[d E] | (d & parsed & Hpost & _)]]; [by rewrite E| |done].
  rewrite E. apply rpc_read_world.
Qed.

(** X13. Traffic for other domains does not touch a domain: after a run
    of requests none of which names the domain [d], the storage of the
    object of [d] is what it was. *)
Theorem other_domains_leave_storage (P : Platform) (env : Env)
    (reqs : list (Request * string)) (w : World) (d : string) :
  Forall (fun rn : Request * string => domain_param rn.1 <> Some d) reqs ->
  (serve P env reqs w).1.2 (instance_name d) = w (instance_name d).
Proof.
  revert w. induction reqs as [|[request now] rest IH]; intros w Hall; [done|].
  apply Forall_cons in Hall as [Hd Hall]. cbn [fst] in Hd.
  rewrite serve_cons. cbn [fst snd]. rewrite (IH _ Hall).
  apply fetch_other_instance. intros d' Hd' E.
  apply instance_name_inj in E as ->. done.
Qed.

(** X14. Only POSTs write: after a run of requests none of which is a
    POST (reads, preflights, whatever their credentials), every storage
    is what it was. *)
Theorem runs_without_post_change_nothing (P : Platform) (env : Env)
    (reqs : list (Request * string)) (w : World) (i : string) :
  Forall (fun rn : Request * string => method rn.1 <> "POST") reqs ->
  (serve P env reqs w).1.2 i = w i.
Proof.
  revert w. induction reqs as [|[request now] rest IH]; intros w Hall; [done|].
  apply Forall_cons in Hall as [Hm Hall]. cbn [fst] in Hm.
  rewrite serve_cons. cbn [fst snd]. rewrite (IH _ Hall).
  by apply fetch_not_post.
Qed.

(** X15. The count goes on from what is stored, within the integers a
    JavaScript number holds exactly: when the counter methods read the
    count [z] for a domain (an absent entry, a stored 0 and a stored
    [NaN] all read as 0), with [-2^53 <= z] and [z + n <= 2^53], a run
    of [n] [trackDomainRequest] calls returns [z + 1], ..., [z + n] in
    order, the count then reads [z + n], and no other entry changes. *)
Theorem track_sequence_continues (P : Platform) (domain : string)
    (nows : list string) (st : gmap string stored) (z : Z) :
  holds_count domain st z ->
  (- 2 ^ 53 <= z)%Z ->
  (z + Z.of_nat (List.length nows) <= 2 ^ 53)%Z ->
  exists results st_n,
    track_all P domain nows st = (Returned results, st_n)
    /\ List.length results = List.length nows
    /\ (forall i r, results !! i = Some r ->
          tr_requests r = Num (z + Z.of_nat (S i)))
    /\ getDomainRequests domain st_n
       = (Returned (SNumber (Num (z + Z.of_nat (List.length nows)))), st_n)
    /\ forall k, k <> storage_key domain -> st_n !! k = st !! k.
Proof.
  intros Hz _ _.
  destruct (track_all_run P domain nows st z Hz) as (st_n & Hrun & Hheld & Hframe).
  exists (track_results domain z nows), st_n.
  split; [exact Hrun|]. split; [apply track_results_length|]. split.
  { intros i r Hr. by apply track_results_lookup in Hr. }
  split; [|exact Hframe].
  rewrite getDomainRequests_reads. unfold holds_count in Hheld.
  by rewrite Hheld.
Qed.

(** ** Further properties of the authorization check *)

Lemma until_space_no_space s : no_space (until_space s) = true.
Proof.
  induction s as [|c s IH]; [done|]. cbn [until_space].
  destruct (Ascii.eqb c " ") eqn:E; [done|].
  cbn [no_space]. by rewrite E, IH.
Qed.

Lemma until_space_id s : no_space s = true -> until_space s = s.
Proof.
  induction s as [|c s IH]; [done|]. cbn [no_space until_space].
  destruct (Ascii.eqb c " "); [done|]. cbn [negb andb].
  intros H. by rewrite IH.
Qed.

Lemma until_space_cases x :
  x = until_space x \/ exists rest, x = until_space x +:+ " " +:+ rest.
Proof.
  induction x as [|c x IH]; [by left|]. cbn [until_space].
  destruct (Ascii.eqb_spec c " ") as [->|Hc].
  - right. by exists x.
  - destruct IH as [IH | [rest IH]].
    + left. by rewrite <- IH.
    + right. exists rest.
      change (String c (until_space x) +:+ " " +:+ rest)
        with (String c (until_space x +:+ " " +:+ rest)).
      by rewrite <- IH.
Qed.

Lemma prefix_app p : forall h,
  String.prefix p h = true -> exists x, h = p +:+ x.
Proof.
  induction p as [|a p IH]; intros h H.
  - by exists h.
  - destruct h as [|b h]; [done|]. cbn [String.prefix] in H.
    destruct (ascii_dec a b) as [->|]; [|done].
    apply IH in H as [x ->]. by exists x.
Qed.

Lemma bearer_token_no_space h t : bearer_token h = Some t -> no_space t = true.
Proof.
  unfold bearer_token. destruct (String.prefix "Bearer " h); [|done].
  destruct (after_space h) as [rest|]; [|done].
  intros [= <-]. apply until_space_no_space.
Qed.

(** X16. A secret with a space in it locks everybody out: the token the
    router compares never has a space, so every request other than
    OPTIONS gets 401, whatever its Authorization header. *)
Theorem secret_with_space_locks_out (P : Platform) (request : Request)
    (env : Env) (now : string) (w : World) :
  no_space (AUTH_TOKEN env) = false ->
  method request <> "OPTIONS" ->
  fetch P request env now w = (Returned unauthorized_response, w, []).
Proof.
  intros Hspace Hm. apply fetch_unauthorized; [done|].
  destruct (authorization request) as [h|]; [|done].
  destruct (unauthorized env (Some h)) eqn:E; [done|].
  apply authorized_iff, bearer_token_no_space in E. congruence.
Qed.

(** X17. For a secret without a space, the accepted Authorization
    headers are exactly ["Bearer <secret>"] and ["Bearer <secret> "]
    followed by anything; the scheme name is case sensitive and takes
    exactly one space before the secret. *)
Theorem accepted_headers (env : Env) (h : string) :
  no_space (AUTH_TOKEN env) = true ->
  unauthorized env (Some h) = false
  <-> h = "Bearer " +:+ AUTH_TOKEN env
      \/ exists rest, h = "Bearer " +:+ AUTH_TOKEN env +:+ " " +:+ rest.
Proof.
  intros Hns. rewrite authorized_iff. split.
  - unfold bearer_token. destruct (String.prefix "Bearer " h) eqn:Hp; [|done].
    apply prefix_app in Hp as [x ->]. rewrite bearer_after_space.
    cbn [fmap option_fmap option_map]. intros [= <-].
    destruct (until_space_cases x) as [Hx | [rest Hx]].
    + left. by rewrite <- Hx.
    + right. exists rest. by rewrite <- Hx.
  - intros [-> | [rest ->]].
    + unfold bearer_token. rewrite bearer_prefix, bearer_after_space.
      cbn [fmap option_fmap option_map]. by rewrite until_space_id.
    + by apply bearer_token_trailing.
Qed.

(** ** The further theorems at the worked inputs *)

Lemma track_discards_offers_witness :
  two_offers !! storage_key "example.com"
  = Some (SOffers (map stamp example_calls))
  /\ exists r st1,
       trackDomainRequest example_platform "t" "example.com" two_offers = (Returned r, st1)
       /\ tr_requests r = NaN
       /\ getDomainOffers "example.com" st1 = (Returned (SOffers []), st1).
Proof.
  split; [reflexivity|].
  destruct (track_discards_offers example_platform "example.com" "t" "t2" example_offer
              two_offers (map stamp example_calls))
    as (r & st1 & Hrun & Hnan & _ & _ & Hget & _);
    [reflexivity | discriminate |].
  exists r, st1. auto.
Defined.

Lemma calls_on_two_domains_commute_witness :
  "example.com" <> "other.org"
  /\ (submitDomainOffer example_platform "t2" "other.org" second_offer
        (submitDomainOffer example_platform "t1" "example.com" example_offer ∅).2).2
     = (submitDomainOffer example_platform "t1" "example.com" example_offer
          (submitDomainOffer example_platform "t2" "other.org" second_offer ∅).2).2.
Proof.
  split; [discriminate|].
  destruct (calls_on_two_domains_commute example_platform "example.com" "other.org" "t1" "t2"
              example_offer second_offer ∅) as [(_ & _ & H) _];
    [discriminate | exact H].
Defined.

Lemma post_appends_witness :
  holds_offers "example.com"
    (two_offers_world (instance_name "example.com")) (map stamp example_calls)
  /\ exists w',
       fetch example_platform post_example example_env
         "2025-01-05T00:00:00.000Z" two_offers_world
       = (Returned {| status := 200;
                      body := BodyJson (JsonSubmit
                                {| sr_domain := "example.com";
                                   sr_offer :=
                                     {| email := VStr "a@b.com";
                                        amount := VNum (Num 500);
                                        description := VUndefined;
                                        timestamp :=
                                          "2025-01-05T00:00:00.000Z" |};
                                   sr_totalOffers := 3 |});
                      headers := jsonHeaders |},
          w',
          [CallSubmitDomainOffer (instance_name "example.com") "example.com"
             example_offer])
       /\ w' (instance_name "example.com")
          = <[storage_key "example.com" :=
                SOffers (map stamp example_calls
                         ++ [stamp ("2025-01-05T00:00:00.000Z",
                                    example_offer)])]> two_offers.
Proof.
  split; [reflexivity|].
  destruct (post_appends example_platform post_example example_env
              "2025-01-05T00:00:00.000Z" two_offers_world "example.com"
              (VObj [("email", VStr "a@b.com"); ("amount", VNum (Num 500))])
              (map stamp example_calls))
    as (w' & Hfetch & Hentry & _);
    [reflexivity | reflexivity | reflexivity | discriminate | reflexivity
    | reflexivity | reflexivity | reflexivity |].
  exists w'. split; [exact Hfetch | exact Hentry].
Defined.

Lemma missing_domain_is_400_witness :
  method get_without_domain <> "OPTIONS"
  /\ unauthorized example_env (authorization get_without_domain) = false
  /\ fetch example_platform get_without_domain example_env "t" empty_world
     = (Returned {| status := 400;
                    body := BodyText "Domain parameter is required";
                    headers := [] |}, empty_world, []).
Proof.
  split; [discriminate|]. split; [reflexivity|].
  apply (missing_domain_is_400 example_platform get_without_domain example_env "t" empty_world);
    [discriminate | reflexivity | left; reflexivity].
Defined.

Lemma number_entry_breaks_offers_witness :
  counted_world (instance_name "example.com") !! storage_key "example.com"
  = Some (SNumber (Num 1))
  /\ exists w' calls,
       fetch example_platform post_example example_env "t" counted_world
       = (Returned {| status := 400;
                      body := BodyText "Invalid request body";
                      headers := corsHeaders |}, w', calls).
Proof.
  split; [reflexivity|].
  destruct (number_entry_breaks_offers example_platform post_example example_env "t"
              counted_world "example.com"
              (VObj [("email", VStr "a@b.com"); ("amount", VNum (Num 500))])
              (Num 1))
    as [Hpost _];
    [discriminate | reflexivity | reflexivity | discriminate | reflexivity
    | reflexivity |].
  destruct Hpost as (w' & Hfetch & _);
    [reflexivity | reflexivity | reflexivity | reflexivity |].
  eexists w', _. exact Hfetch.
Defined.

Lemma fetch_changes_only_its_entry_witness :
  (fetch example_platform post_example example_env "t" empty_world).1.2
    (instance_name "example.com") !! storage_key "example.com"
  <> empty_world (instance_name "example.com") !! storage_key "example.com"
  /\ method post_example = "POST"
  /\ exists d, domain_param post_example = Some d
       /\ instance_name "example.com" = instance_name d
       /\ storage_key "example.com" = storage_key d.
Proof.
  split; [discriminate|].
  apply (fetch_changes_only_its_entry example_platform post_example example_env "t" empty_world).
  discriminate.
Defined.

Lemma fetch_only_appends_witness :
  two_offers_world (instance_name "example.com") !! storage_key "example.com"
  = Some (SOffers (map stamp example_calls))
  /\ exists extra,
       (fetch example_platform post_example example_env "t" two_offers_world).1.2
         (instance_name "example.com") !! storage_key "example.com"
       = Some (SOffers (map stamp example_calls ++ extra))
       /\ List.length extra <= 1.
Proof.
  split; [reflexivity|].
  apply (fetch_only_appends example_platform post_example example_env "t" two_offers_world).
  reflexivity.
Defined.

Lemma served_storage_is_offers_witness :
  (serve example_platform example_env example_run empty_world).1.2
    (instance_name "example.com") !! storage_key "example.com"
  = Some (SOffers (map posted example_run))
  /\ exists d l,
       instance_name "example.com" = instance_name d
       /\ storage_key "example.com" = storage_key d /\ d <> ""
       /\ SOffers (map posted example_run) = SOffers l /\ l <> []
       /\ Forall (fun o => truthy (email o) = true
                           /\ truthy (amount o) = true) l.
Proof.
  split; [reflexivity|].
  apply (served_storage_is_offers example_platform example_env example_run).
  reflexivity.
Defined.

Lemma served_valid_post_outcome_witness :
  valid_post example_env "example.com" post_example = true
  /\ exists l,
       holds_offers "example.com"
         ((serve example_platform example_env example_run empty_world).1.2
            (instance_name "example.com")) l
       /\ (fetch example_platform post_example example_env "t"
             (serve example_platform example_env example_run empty_world).1.2).1.1
          = if call_accepts example_platform
                 (offer_of (default VUndefined (json post_example)))
               && put_accepts example_platform (l ++ [posted (post_example, "t")])
            then Returned {| status := 200;
                             body := BodyJson (JsonSubmit
                                       {| sr_domain := "example.com";
                                          sr_offer := posted (post_example, "t");
                                          sr_totalOffers := S (List.length l) |});
                             headers := jsonHeaders |}
            else Returned {| status := 400;
                             body := BodyText "Invalid request body";
                             headers := corsHeaders |}.
Proof.
  split; [reflexivity|].
  apply (served_valid_post_outcome example_platform example_env example_run
           "example.com" post_example "t"); [discriminate | reflexivity].
Defined.

Lemma posts_then_read_witness :
  forallb (fun rn : Request * string =>
             valid_post example_env "example.com" rn.1) example_run = true
  /\ forallb (fun rn : Request * string =>
                call_accepts example_platform
                  (offer_of (default VUndefined (json rn.1)))) example_run
     = true
  /\ put_accepts example_platform (map posted (take 1 example_run)) = true
  /\ put_accepts example_platform (map posted (take 2 example_run)) = true
  /\ valid_read example_env "example.com" get_request = true
  /\ exists w' calls,
       serve example_platform example_env example_run empty_world
       = (post_responses "example.com" 0 example_run, w', calls)
       /\ (fetch example_platform get_request example_env "t" w').1.1
          = Returned {| status := 200;
                        body := BodyJson (JsonOffers "example.com"
                                  (SOffers (map posted example_run)));
                        headers := jsonHeaders |}.
Proof.
  split; [reflexivity|]. split; [reflexivity|]. split; [reflexivity|].
  split; [reflexivity|]. split; [reflexivity|].
  destruct (posts_then_read example_platform example_env "example.com"
              example_run empty_world [])
    as (w' & calls & Hserve & _ & _ & Hread);
    [discriminate | reflexivity | reflexivity | | reflexivity |].
  { intros [|[|[|j]]] Hj; try lia; reflexivity. }
  exists w', calls. split; [exact Hserve|].
  exact (Hread get_request "t" eq_refl).
Defined.

Lemma body_extras_are_ignored_witness :
  fetch example_platform post_example example_env "t" empty_world
  = fetch example_platform post_example_extras example_env "t" empty_world.
Proof.
  apply (body_extras_are_ignored example_platform post_example post_example_extras example_env
           "t" empty_world
           [("email", VStr "a@b.com"); ("amount", VNum (Num 500))]
           [("timestamp", VStr "1999-01-01T00:00:00.000Z");
            ("email", VStr "a@b.com");
            ("admin", VBool true);
            ("amount", VNum (Num 500))]);
    reflexivity.
Defined.

Lemma other_domains_leave_storage_witness :
  Forall (fun rn : Request * string => domain_param rn.1 <> Some "other.org")
    example_run
  /\ (serve example_platform example_env example_run two_offers_world).1.2
       (instance_name "other.org")
     = two_offers_world (instance_name "other.org").
Proof.
  assert (H : Forall (fun rn : Request * string =>
                        domain_param rn.1 <> Some "other.org") example_run).
  { repeat constructor; discriminate. }
  split; [exact H|].
  exact (other_domains_leave_storage example_platform example_env example_run two_offers_world
           "other.org" H).
Defined.

Lemma runs_without_post_change_nothing_witness :
  Forall (fun rn : Request * string => method rn.1 <> "POST") reading_run
  /\ (serve example_platform example_env reading_run two_offers_world).1.2
       (instance_name "example.com")
     = two_offers_world (instance_name "example.com").
Proof.
  assert (H : Forall (fun rn : Request * string => method rn.1 <> "POST")
                reading_run).
  { repeat constructor; discriminate. }
  split; [exact H|].
  exact (runs_without_post_change_nothing example_platform example_env reading_run
           two_offers_world (instance_name "example.com") H).
Defined.

Lemma track_sequence_continues_witness :
  holds_count "example.com" counted_once 1
  /\ (- 2 ^ 53 <= 1)%Z
  /\ (1 + Z.of_nat (List.length ["t1"; "t2"]) <= 2 ^ 53)%Z
  /\ exists results st_n,
       track_all example_platform "example.com" ["t1"; "t2"] counted_once
       = (Returned results, st_n)
       /\ getDomainRequests "example.com" st_n
          = (Returned (SNumber (Num 3)), st_n).
Proof.
  split; [reflexivity|].
  split; [vm_compute; discriminate|]. split; [vm_compute; discriminate|].
  destruct (track_sequence_continues example_platform "example.com"
              ["t1"; "t2"] counted_once 1)
    as (results & st_n & Hrun & _ & _ & Hget & _);
    [reflexivity | vm_compute; discriminate | vm_compute; discriminate |].
  exists results, st_n. auto.
Defined.

Lemma secret_with_space_locks_out_witness :
  no_space (AUTH_TOKEN spaced_env) = false
  /\ method get_trailing_spaced <> "OPTIONS"
  /\ fetch example_platform get_trailing_spaced spaced_env "t" empty_world
     = (Returned unauthorized_response, empty_world, []).
Proof.
  split; [reflexivity|]. split; [discriminate|].
  apply (secret_with_space_locks_out example_platform get_trailing_spaced spaced_env "t"
           empty_world); [reflexivity | discriminate].
Defined.

Lemma accepted_headers_witness :
  no_space (AUTH_TOKEN example_env) = true
  /\ (unauthorized example_env (Some "Bearer YELLOW_BEAR_SUN and more") = false
      <-> "Bearer YELLOW_BEAR_SUN and more" = "Bearer " +:+ AUTH_TOKEN example_env
          \/ exists rest,
               "Bearer YELLOW_BEAR_SUN and more"
               = "Bearer " +:+ AUTH_TOKEN example_env +:+ " " +:+ rest).
Proof.
  split; [reflexivity|].
  apply (accepted_headers example_env "Bearer YELLOW_BEAR_SUN and more").
  reflexivity.
Defined.
